(** * Temporary video-access tokens and the Telegram stream proxy

    A shallow embedding of the token subsystem of [src/index.tsx]:
    [generateTempToken], [verifyTempToken] and the two route handlers
    [POST /api/telegram/get-file-url] and [GET /api/telegram/stream/:token],
    together with the JavaScript built-ins they call ([btoa], [atob],
    [parseInt], [String.prototype.split], [String.prototype.replace],
    [Date.prototype.toISOString], [Headers]). *)

From stdpp Require Import base option list numbers strings gmap.
From Stdlib Require Import ZifyNat.

Local Open Scope N_scope.

(* ===================================================================== *)
(** * JavaScript values                                                   *)
(* ===================================================================== *)

(** A JavaScript string is a sequence of UTF-16 code units. *)
Definition char := N.
Abbreviation jsstring := (list char).

(** Embeds a literal of the source text (all of them are ASCII). *)
Definition js (s : string) : jsstring :=
  (fun a => Ascii.N_of_ascii a) <$> String.list_ascii_of_string s.

(** Abrupt completions: the exceptions the modelled code can meet. *)
Inductive exn : Type :=
  | InvalidCharacterError   (* btoa / atob *)
  | TypeError               (* property access on undefined, failed fetch *)
  | RangeError              (* toISOString of an invalid Date *)
  | SyntaxError             (* Response.json / Request.json on a non-JSON body *)
  | D1Error.                (* a failed D1 statement *)

Inductive completion (A : Type) : Type :=
  | Normal (a : A)
  | Throw (e : exn).
Arguments Normal {A} a.
Arguments Throw {A} e.

#[export] Instance completion_ret : MRet completion := fun A a => Normal a.
#[export] Instance completion_bind : MBind completion := fun A B f m =>
  match m with
  | Normal a => f a
  | Throw e => Throw e
  end.

(** [try { body } catch (error) { handler }]. *)
Definition try_catch {A} (body : completion A) (handler : exn -> completion A)
  : completion A :=
  match body with
  | Normal a => Normal a
  | Throw e => handler e
  end.

(** The values that destructuring an array of strings can bind. *)
Inductive jsval : Type :=
  | Undefined
  | Str (s : jsstring).

#[export] Instance jsval_eq_dec : EqDecision jsval.
Proof. solve_decision. Defined.

(** Numbers that the token code manipulates: integral values and NaN.
    [Num z] stands for the Number nearest to the integer [z]; on the safe
    integers (magnitude below 2^53) it is [z] itself. *)
Inductive jsnum : Type :=
  | NaN
  | Num (z : Z).

#[export] Instance jsnum_eq_dec : EqDecision jsnum.
Proof. solve_decision. Defined.

(** [a > b] on Numbers: every comparison with NaN is false. *)
Definition js_gt (a b : jsnum) : bool :=
  match a, b with
  | Num x, Num y => bool_decide (y < x)%Z
  | _, _ => false
  end.

(** [ToString] on the values above. *)
Definition to_string (v : jsval) : jsstring :=
  match v with
  | Undefined => js "undefined"
  | Str s => s
  end.

(** Strict inequality [!==]. *)
Definition strict_neq (a b : jsval) : bool := bool_decide (a ≠ b).

(** [a || b] on strings that may be absent: the empty string is falsy. *)
Definition or_else (a : option jsstring) (b : option jsstring) : option jsstring :=
  match a with
  | Some (_ :: _) => a
  | _ => b
  end.

Definition truthy (a : option jsstring) : bool :=
  match a with
  | Some (_ :: _) => true
  | _ => false
  end.

(* --------------------------------------------------------------------- *)
(** ** Number to string and [parseInt]                                    *)
(* --------------------------------------------------------------------- *)

(** Decimal digits, least significant first. *)
Fixpoint digits_le (fuel : nat) (n : N) : list N :=
  match fuel with
  | O => []
  | S f => n mod 10 :: (if n <? 10 then [] else digits_le f (n / 10))
  end.

(** The value of little-endian decimal digits. *)
Fixpoint value_le (ds : list N) : N :=
  match ds with
  | [] => 0
  | d :: r => d + 10 * value_le r
  end.

Definition decimal (n : N) : jsstring :=
  reverse ((fun d => 48 + d) <$> digits_le (S (N.size_nat n)) n).

(** [Number::toString] for NaN and for integers of magnitude below 10^21
    (above that bound JavaScript switches to exponent notation, which no
    time value reaches). *)
Definition number_to_string (x : jsnum) : jsstring :=
  match x with
  | NaN => js "NaN"
  | Num z => if (z <? 0)%Z then 45 :: decimal (Z.to_N (- z)) else decimal (Z.to_N z)
  end.

(** [StrWhiteSpaceChar]: white space and line terminators. *)
Definition is_str_whitespace (c : char) : bool :=
  ((9 <=? c) && (c <=? 13)) || (c =? 32) || (c =? 160) || (c =? 5760)
  || ((8192 <=? c) && (c <=? 8202)) || (c =? 8232) || (c =? 8233)
  || (c =? 8239) || (c =? 8287) || (c =? 12288) || (c =? 65279).

Fixpoint trim_start (s : jsstring) : jsstring :=
  match s with
  | c :: r => if is_str_whitespace c then trim_start r else s
  | [] => []
  end.

(** The value of [c] as a digit in [radix], if it is one. *)
Definition digit_value (radix : N) (c : char) : option N :=
  let v :=
    if (48 <=? c) && (c <=? 57) then Some (c - 48)
    else if (97 <=? c) && (c <=? 122) then Some (c - 97 + 10)
    else if (65 <=? c) && (c <=? 90) then Some (c - 65 + 10)
    else None in
  match v with
  | Some d => if d <? radix then Some d else None
  | None => None
  end.

(** The digits of the longest prefix of [s] made of radix-[radix] digits. *)
Fixpoint digit_prefix (radix : N) (s : jsstring) : list N :=
  match s with
  | c :: r =>
      match digit_value radix c with
      | Some d => d :: digit_prefix radix r
      | None => []
      end
  | [] => []
  end.

Definition horner (radix : N) (ds : list N) : N :=
  fold_left (fun acc d => acc * radix + d) ds 0.

(** An optional sign, and the rest. *)
Definition strip_sign (s : jsstring) : Z * jsstring :=
  match s with
  | c :: r => if c =? 45 then ((-1)%Z, r)
              else if c =? 43 then (1%Z, r) else (1%Z, s)
  | [] => (1%Z, s)
  end.

(** The radix that a leading [0x] or [0X] selects, and the rest. *)
Definition strip_radix_prefix (s : jsstring) : N * jsstring :=
  match s with
  | c0 :: c1 :: r =>
      if (c0 =? 48) && ((c1 =? 120) || (c1 =? 88)) then (16, r) else (10, s)
  | _ => (10, s)
  end.

(** [parseInt(v)] with no radix argument. *)
Definition parseInt (v : jsval) : jsnum :=
  let s := trim_start (to_string v) in
  let '(sign, s) := strip_sign s in
  let '(radix, s) := strip_radix_prefix s in
  match digit_prefix radix s with
  | [] => NaN
  | ds => Num (sign * Z.of_N (horner radix ds))
  end.

(* --------------------------------------------------------------------- *)
(** ** Strings: [split], [replace], [repeat]                              *)
(* --------------------------------------------------------------------- *)

(** [s.split(sep)] for a separator of one code unit. *)
Fixpoint split (sep : char) (s : jsstring) : list jsstring :=
  match s with
  | [] => [[]]
  | c :: r =>
      if c =? sep then [] :: split sep r
      else match split sep r with
           | f :: fs => (c :: f) :: fs
           | [] => [[c]]
           end
  end.

(** Array destructuring: the element at [i], or [undefined]. *)
Definition element (a : list jsstring) (i : nat) : jsval :=
  match a !! i with
  | Some s => Str s
  | None => Undefined
  end.

(** [s.replace(/[...]/g, fn)] for a character class [cls]. *)
Definition replace_class (cls : char -> bool) (fn : char -> jsstring)
    (s : jsstring) : jsstring :=
  s ≫= (fun c => if cls c then fn c else [c]).

(** [s.replace(/c/g, by)] for one literal character. *)
Definition replace_char (c : char) (by_ : jsstring) (s : jsstring) : jsstring :=
  replace_class (fun x => x =? c) (fun _ => by_) s.

(** ['c'.repeat(n)]. *)
Definition repeat_char (c : char) (n : nat) : jsstring := replicate n c.

(* --------------------------------------------------------------------- *)
(** ** [btoa] and [atob]                                                  *)
(* --------------------------------------------------------------------- *)

Definition b64_char (i : N) : char :=
  if i <? 26 then 65 + i
  else if i <? 52 then 97 + (i - 26)
  else if i <? 62 then 48 + (i - 52)
  else if i =? 62 then 43 else 47.

Definition b64_index (c : char) : option N :=
  if (65 <=? c) && (c <=? 90) then Some (c - 65)
  else if (97 <=? c) && (c <=? 122) then Some (c - 97 + 26)
  else if (48 <=? c) && (c <=? 57) then Some (c - 48 + 52)
  else if c =? 43 then Some 62
  else if c =? 47 then Some 63
  else None.

(** Octets regrouped six bits at a time; a final group of one or two
    octets is completed with zero bits. *)
Fixpoint sextets_of_octets (l : list N) : list N :=
  match l with
  | a :: b :: c :: r =>
      a / 4 :: (a mod 4) * 16 + b / 16 :: (b mod 16) * 4 + c / 64 :: c mod 64
        :: sextets_of_octets r
  | [a; b] => [a / 4; (a mod 4) * 16 + b / 16; (b mod 16) * 4]
  | [a] => [a / 4; (a mod 4) * 16]
  | [] => []
  end.

(** Sextets regrouped eight bits at a time; leftover bits are dropped. *)
Fixpoint octets_of_sextets (l : list N) : list N :=
  match l with
  | s0 :: s1 :: s2 :: s3 :: r =>
      s0 * 4 + s1 / 16 :: (s1 mod 16) * 16 + s2 / 4 :: (s2 mod 4) * 64 + s3
        :: octets_of_sextets r
  | [s0; s1; s2] => [s0 * 4 + s1 / 16; (s1 mod 16) * 16 + s2 / 4]
  | [s0; s1] => [s0 * 4 + s1 / 16]
  | _ => []
  end.

Definition b64_padding (l : list N) : jsstring :=
  repeat_char 61 ((3 - length l mod 3) mod 3).

(** Base64 of RFC 4648 with the standard alphabet and padding. *)
Definition base64_encode (l : list N) : jsstring :=
  (b64_char <$> sextets_of_octets l) ++ b64_padding l.

(** [btoa(s)]: throws when a code unit exceeds 0xFF. *)
Definition btoa (s : jsstring) : completion jsstring :=
  if forallb (fun c => c <=? 255) s then Normal (base64_encode s)
  else Throw InvalidCharacterError.

Definition is_ascii_whitespace (c : char) : bool :=
  (c =? 9) || (c =? 10) || (c =? 12) || (c =? 13) || (c =? 32).

(** When the length is a multiple of four, one or two trailing ['=']
    are removed. *)
Definition strip_padding (s : jsstring) : jsstring :=
  if decide (length s mod 4 = 0)%nat then
    match reverse s with
    | c1 :: c2 :: r =>
        if c1 =? 61 then (if c2 =? 61 then reverse r else reverse (c2 :: r))
        else s
    | _ => s
    end
  else s.

(** [atob(s)]: the forgiving-base64 decode; throws on failure. *)
Definition atob (s : jsstring) : completion jsstring :=
  let s := filter (fun c => is_ascii_whitespace c = false) s in
  let s := strip_padding s in
  if decide (length s mod 4 = 1)%nat then Throw InvalidCharacterError
  else match mapM b64_index s with
       | Some sx => Normal (octets_of_sextets sx)
       | None => Throw InvalidCharacterError
       end.

(* ===================================================================== *)
(** * Token management ([generateTempToken], [verifyTempToken])           *)
(* ===================================================================== *)

(** The replacement table [{ '+': '-', '/': '_', '=': '' }]. *)
Definition url_table (c : char) : option jsstring :=
  if c =? 43 then Some [45]
  else if c =? 47 then Some [95]
  else if c =? 61 then Some []
  else None.

Definition generateTempToken (fileId userIP : jsstring) (expiresAt : jsnum)
  : completion jsstring :=
  let data := fileId ++ js ":" ++ userIP ++ js ":" ++ number_to_string expiresAt in
  (* Simple base64 encoding *)
  b ← btoa data;
  mret (replace_class
          (fun c => (c =? 43) || (c =? 47) || (c =? 61))
          (fun m => default [] (or_else (url_table m) (Some [])))
          b).

Record token_data := TokenData { file_id : jsval; expires_at : jsnum }.

#[export] Instance token_data_eq_dec : EqDecision token_data.
Proof. solve_decision. Defined.

(** The first three statements of [verifyTempToken]: the string that the
    token carries. *)
Definition token_payload (token : jsstring) : completion jsstring :=
  let padding := repeat_char 61 ((4 - length token mod 4) mod 4) in
  let base64 := replace_char 95 (js "/") (replace_char 45 (js "+") token) ++ padding in
  atob base64.

(** The statements of [verifyTempToken] up to [parseInt]: the three
    destructured fields, the third one parsed. *)
Definition decodeTempToken (token : jsstring)
  : completion (jsval * jsval * jsnum) :=
  data ← token_payload token;
  let fields := split 58 data in
  let fileId := element fields 0 in
  let tokenIP := element fields 1 in
  let expiresAt := element fields 2 in
  let expires := parseInt expiresAt in
  mret (fileId, tokenIP, expires).

(** [verifyTempToken(token, userIP)], run when [Date.now()] is [now].
    [None] is the source's [null]. *)
Definition verifyTempToken (token : jsstring) (userIP : jsstring) (now : Z)
  : completion (option token_data) :=
  try_catch
    ((* Reverse the encoding *)
     let padding := repeat_char 61 ((4 - length token mod 4) mod 4) in
     let base64 :=
       replace_char 95 (js "/") (replace_char 45 (js "+") token) ++ padding in
     data ← atob base64;
     let fields := split 58 data in
     let fileId := element fields 0 in
     let tokenIP := element fields 1 in
     let expiresAt := element fields 2 in
     let expires := parseInt expiresAt in
     (* Check if token is expired *)
     if js_gt (Num now) expires then mret None
     else
       (* Check if IP matches: the branch holds only a commented-out
          [return null] *)
       let _ := if strict_neq tokenIP (Str userIP) then tt else tt in
       mret (Some (TokenData fileId expires)))
    (fun error => mret None).

(* ===================================================================== *)
(** * Dates                                                               *)
(* ===================================================================== *)

(** [TimeClip]: a time value is an integer of magnitude at most 8.64e15
    milliseconds; anything else makes an invalid Date (NaN). *)
Definition time_clip (t : Z) : jsnum :=
  if bool_decide (-8640000000000000 <= t <= 8640000000000000)%Z then Num t
  else NaN.

(** [n] in decimal on at least [width] digits. *)
Definition pad_decimal (width : nat) (n : Z) : jsstring :=
  let d := decimal (Z.to_N n) in
  replicate (width - length d) 48 ++ d.

(** Year, month and day of the proleptic Gregorian calendar for a day
    number counted from 1970-01-01. *)
Definition civil_from_days (days : Z) : Z * Z * Z :=
  (let z := days + 719468 in
   let era := z / 146097 in
   let doe := z - era * 146097 in
   let yoe := (doe - doe / 1460 + doe / 36524 - doe / 146096) / 365 in
   let doy := doe - (365 * yoe + yoe / 4 - yoe / 100) in
   let mp := (5 * doy + 2) / 153 in
   let d := doy - (153 * mp + 2) / 5 + 1 in
   let m := if mp <? 10 then mp + 3 else mp - 9 in
   let y := yoe + era * 400 + (if m <=? 2 then 1 else 0) in
   (y, m, d))%Z.

(** [Date.prototype.toISOString] on a valid time value. *)
Definition iso_string (t : Z) : jsstring :=
  (let '(y, m, d) := civil_from_days (t / 86400000) in
   let ms := t mod 86400000 in
   let year :=
     if (0 <=? y) && (y <=? 9999) then pad_decimal 4 y
     else (if y <? 0 then js "-" else js "+") ++ pad_decimal 6 (Z.abs y) in
   year ++ js "-" ++ pad_decimal 2 m ++ js "-" ++ pad_decimal 2 d ++ js "T"
     ++ pad_decimal 2 (ms / 3600000) ++ js ":"
     ++ pad_decimal 2 (ms / 60000 mod 60) ++ js ":"
     ++ pad_decimal 2 (ms / 1000 mod 60) ++ js "."
     ++ pad_decimal 3 (ms mod 1000) ++ js "Z")%Z.

(** A Date object is its time value; [toISOString] throws on an invalid one. *)
Definition toISOString (date : jsnum) : completion jsstring :=
  match date with
  | Num t => Normal (iso_string t)
  | NaN => Throw RangeError
  end.

(* ===================================================================== *)
(** * The environment of a request                                        *)
(* ===================================================================== *)

(** A [Headers] object: a map keyed by lower-cased header names. *)
Abbreviation Headers := (gmap jsstring jsstring).

Definition lower (s : jsstring) : jsstring :=
  (fun c => if (65 <=? c) && (c <=? 90) then c + 32 else c) <$> s.

Definition headers_get (h : Headers) (name : jsstring) : option jsstring :=
  h !! lower name.

Definition headers_set (h : Headers) (name value : jsstring) : Headers :=
  <[lower name := value]> h.

(** [a || lit] where [lit] is a non-empty literal. *)
Definition or_lit (a : option jsstring) (lit : jsstring) : jsstring :=
  default lit (or_else a (Some lit)).

(** [c.req.header('CF-Connecting-IP') || c.req.header('X-Forwarded-For')
    || 'unknown'], which both handlers evaluate first. *)
Definition caller_ip (h : Headers) : jsstring :=
  or_lit (or_else (headers_get h (js "CF-Connecting-IP"))
                  (headers_get h (js "X-Forwarded-For")))
         (js "unknown").

(** The reply of the bot API to [getFile], as far as the handlers read it. *)
Record TgFile := { file_path : option jsstring; file_size : option Z }.
Record TgReply := { tg_ok : bool; tg_result : option TgFile }.

(** What [fetch] resolves to. *)
Record FetchResponse := {
  resp_ok : bool;
  resp_status : Z;
  resp_headers : Headers;
  resp_body : list N;
  resp_json : completion TgReply   (* [await response.json()] *)
}.

(** A row of [movies]; the handlers read its [id] only. *)
Record Movie := { movie_id : Z }.

(** The values bound to the analytics INSERT. *)
Record AnalyticsRow := {
  event_type : jsstring;
  page_url : jsstring;
  row_movie_id : Z;
  user_ip : jsstring;
  user_agent : option jsstring
}.

(** Everything outside the handler: the clock, the configuration, the
    database and the network. *)
Record World := {
  date_now : Z;                                          (* Date.now() *)
  TELEGRAM_BOT_TOKEN : option jsstring;                  (* c.env *)
  db_first : jsstring -> completion (option Movie);      (* SELECT ... .first() *)
  db_run : AnalyticsRow -> completion unit;              (* INSERT ... .run() *)
  net_fetch : jsstring -> completion FetchResponse       (* fetch(url) *)
}.

(** The effects a handler performs, in order. *)
Inductive event : Type :=
  | EvSelectMovie (slug : jsstring)
  | EvInsertAnalytics (row : AnalyticsRow)
  | EvFetch (url : jsstring).

(** Handler computations: a completion together with the effects so far. *)
Definition io (A : Type) : Type := list event -> completion A * list event.

#[export] Instance io_ret : MRet io := fun A a tr => (Normal a, tr).
#[export] Instance io_bind : MBind io := fun A B f m tr =>
  match m tr with
  | (Normal a, tr') => f a tr'
  | (Throw e, tr') => (Throw e, tr')
  end.

Definition lift {A} (c : completion A) : io A := fun tr => (c, tr).

Definition perform {A} (ev : event) (result : completion A) : io A :=
  fun tr => (result, tr ++ [ev]).

Definition try_catch_io {A} (body : io A) (handler : exn -> io A) : io A :=
  fun tr =>
    match body tr with
    | (Normal a, tr') => (Normal a, tr')
    | (Throw e, tr') => handler e tr'
    end.

Definition fetch (w : World) (url : jsstring) : io FetchResponse :=
  perform (EvFetch url) (net_fetch w url).

(** The bodies that [c.json] serialises in the two handlers. *)
Inductive json_body : Type :=
  | JError (error : jsstring)                         (* success: false *)
  | JVideo (video_url direct_url expires_at : jsstring)
           (file_size : option Z).                    (* success: true *)

Inductive response : Type :=
  | JsonResponse (body : json_body) (status : Z)
  | StreamResponse (body : list N) (status : Z) (headers : Headers).

(** [issue_json] is what [await c.req.json()] completes with: a throw
    when the body does not parse, [None] when it parses to [null], or the
    object's [file_id] and [movie_slug]. *)
Record IssueRequest := {
  issue_json : completion (option (jsstring * jsstring));
  issue_headers : Headers
}.

Record StreamRequest := {
  param_token : jsstring;
  stream_headers : Headers
}.

(* ===================================================================== *)
(** * The route handlers                                                  *)
(* ===================================================================== *)

(** [app.post('/api/telegram/get-file-url', ...)]. *)
Definition get_file_url (w : World) (req : IssueRequest) : io response :=
  body ← lift (issue_json req);
  (* const { file_id, movie_slug } = ...: a TypeError on [null] *)
  '(file_id, movie_slug) ← lift (match body with
                                 | Some fields => Normal fields
                                 | None => Throw TypeError
                                 end);
  let userIP := caller_ip (issue_headers req) in
  try_catch_io
    (let botToken := TELEGRAM_BOT_TOKEN w in
     if negb (truthy botToken) then
       mret (JsonResponse (JError (js "Telegram bot not configured")) 500)
     else
       let botToken := default [] botToken in
       movie ← perform (EvSelectMovie movie_slug) (db_first w movie_slug);
       match movie with
       | None => mret (JsonResponse (JError (js "Movie not found")) 404)
       | Some movie =>
           fileResponse ← fetch w (js "https://api.telegram.org/bot" ++ botToken
                                     ++ js "/getFile?file_id=" ++ file_id);
           fileData ← lift (resp_json fileResponse);
           if negb (tg_ok fileData) then
             mret (JsonResponse (JError (js "Invalid file ID")) 400)
           else
             result ← lift (match tg_result fileData with
                            | Some r => Normal r
                            | None => Throw TypeError
                            end);
             let filePath := file_path result in
             let directUrl :=
               js "https://api.telegram.org/file/bot" ++ botToken ++ js "/"
                 ++ to_string (from_option Str Undefined filePath) in
             let expiresAt := time_clip (date_now w + 3600000) in
             tempToken ← lift (generateTempToken file_id userIP expiresAt);
             let row :=
               {| event_type := js "video_access_request";
                  page_url := js "/watch/" ++ movie_slug;
                  row_movie_id := movie_id movie;
                  user_ip := userIP;
                  user_agent := headers_get (issue_headers req) (js "User-Agent") |} in
             _ ← perform (EvInsertAnalytics row) (db_run w row);
             iso ← lift (toISOString expiresAt);
             mret (JsonResponse
                     (JVideo (js "/api/telegram/stream/" ++ tempToken)
                             directUrl iso (file_size result))
                     200)
       end)
    (fun error => mret (JsonResponse (JError (js "Failed to get video URL")) 500)).

(** [app.get('/api/telegram/stream/:token', ...)]. *)
Definition stream (w : World) (req : StreamRequest) : io response :=
  let token := param_token req in
  let userIP := caller_ip (stream_headers req) in
  try_catch_io
    (tokenData ← lift (verifyTempToken token userIP (date_now w));
     match tokenData with
     | None => mret (JsonResponse (JError (js "Invalid or expired token")) 401)
     | Some tokenData =>
         let botToken := TELEGRAM_BOT_TOKEN w in
         if negb (truthy botToken) then
           mret (JsonResponse (JError (js "Service unavailable")) 503)
         else
           let botToken := default [] botToken in
           fileResponse ← fetch w (js "https://api.telegram.org/bot" ++ botToken
                                     ++ js "/getFile?file_id="
                                     ++ to_string (file_id tokenData));
           fileData ← lift (resp_json fileResponse);
           if negb (tg_ok fileData) then
             mret (JsonResponse (JError (js "Video no longer available")) 404)
           else
             result ← lift (match tg_result fileData with
                            | Some r => Normal r
                            | None => Throw TypeError
                            end);
             let filePath := file_path result in
             let videoUrl :=
               js "https://api.telegram.org/file/bot" ++ botToken ++ js "/"
                 ++ to_string (from_option Str Undefined filePath) in
             videoResponse ← fetch w videoUrl;
             if negb (resp_ok videoResponse) then
               mret (JsonResponse (JError (js "Video stream unavailable")) 404)
             else
               let headers : Headers := ∅ in
               let headers :=
                 headers_set headers (js "Content-Type")
                   (or_lit (headers_get (resp_headers videoResponse)
                                        (js "Content-Type"))
                           (js "video/mp4")) in
               let headers :=
                 headers_set headers (js "Content-Length")
                   (or_lit (headers_get (resp_headers videoResponse)
                                        (js "Content-Length"))
                           (js "0")) in
               let headers := headers_set headers (js "Accept-Ranges") (js "bytes") in
               let headers :=
                 headers_set headers (js "Cache-Control")
                   (js "no-cache, no-store, must-revalidate") in
               let headers :=
                 headers_set headers (js "X-Content-Type-Options") (js "nosniff") in
               mret (StreamResponse (resp_body videoResponse)
                                    (resp_status videoResponse) headers)
     end)
    (fun error => mret (JsonResponse (JError (js "Stream error")) 500)).

(** Running a handler from an empty effect log. *)
Definition run {A} (m : io A) : completion A * list event := m [].

(** [app.use('/api/*', cors({ origin: '*', allowHeaders: [...],
    allowMethods: [...] }))]: the middleware of hono/cors around every
    API route, for a request that is no preflight (its method is not
    OPTIONS).  With the origin ['*'] it sets [Access-Control-Allow-Origin:
    *] on the response and nothing else; [allowHeaders] and [allowMethods]
    only shape the answer to a preflight.  The headers of the JSON answers
    are not modelled. *)
Definition cors (next : io response) : io response :=
  r ← next;
  mret (match r with
        | StreamResponse body status headers =>
            StreamResponse body status
              (headers_set headers (js "Access-Control-Allow-Origin") (js "*"))
        | JsonResponse body status => JsonResponse body status
        end).

(** [GET /api/telegram/stream/:token] as the app answers it: the route
    handler inside the middleware. *)
Definition api_stream (w : World) (req : StreamRequest) : io response :=
  cors (stream w req).

(* ===================================================================== *)
(** * The wording of the specification                                    *)
(* ===================================================================== *)

(** [sep]-joined fields. *)
Fixpoint join (sep : jsstring) (fields : list jsstring) : jsstring :=
  match fields with
  | [] => []
  | [f] => f
  | f :: fs => f ++ sep ++ join sep fs
  end.

(** The remap of the URL-safe alphabet. *)
Definition spec_remap (c : char) : char :=
  if c =? 43 then 45 else if c =? 47 then 95 else c.

(** [s] without its trailing run of [c]. *)
Fixpoint strip_end (c : char) (s : jsstring) : jsstring :=
  match s with
  | [] => []
  | x :: r =>
      match strip_end c r with
      | [] => if x =? c then [] else [x]
      | r' => x :: r'
      end
  end.

(** The reference encoding, after the specification's wording: join the
    fields with a colon, encode with the standard base64 alphabet, remap
    to the URL-safe form, strip the padding. *)
Definition spec_encode (fileId userIP : jsstring) (expiresAt : jsnum) : jsstring :=
  strip_end 61
    (spec_remap <$>
       base64_encode (join (js ":") [fileId; userIP; number_to_string expiresAt])).

(** A decimal integer literal: an optional minus sign, then digits only. *)
Definition is_integer_literal (s : jsstring) : bool :=
  let digits s :=
    match s with
    | [] => false
    | _ => forallb (fun c => (48 <=? c) && (c <=? 57)) s
    end in
  match s with
  | c :: r => if c =? 45 then digits r else digits s
  | [] => false
  end.

(** The specification's conditions for a malformed token: base64 decoding
    fails, or the decoded content does not split into exactly three
    colon-separated fields, or the third field is not a valid integer. *)
Definition malformed (token : jsstring) : Prop :=
  match token_payload token with
  | Throw _ => True
  | Normal data =>
      match split 58 data with
      | [_; _; third] => is_integer_literal third = false
      | _ => True
      end
  end.

(** The relay headers as the specification lists them: the upstream
    content type, the content length when the upstream gives one, and the
    three fixed directives. *)
Definition spec_relay_headers (upstream : Headers) : Headers :=
  let h : Headers :=
    {[ lower (js "Accept-Ranges") := js "bytes";
       lower (js "Cache-Control") := js "no-cache, no-store, must-revalidate";
       lower (js "X-Content-Type-Options") := js "nosniff" ]} in
  let h :=
    match headers_get upstream (js "Content-Type") with
    | Some v => <[lower (js "Content-Type") := v]> h
    | None => h
    end in
  match headers_get upstream (js "Content-Length") with
  | Some v => <[lower (js "Content-Length") := v]> h
  | None => h
  end.

(** Strings of code units below 0x100, the domain of [btoa]. *)
Definition latin1 (s : jsstring) : Prop := forallb (fun c => c <=? 255) s = true.

(** Strings without a colon, the separator of the token fields. *)
Definition colon_free (s : jsstring) : Prop :=
  forallb (fun c => negb (c =? 58)) s = true.

(** Valid time values, the range of [Date.prototype.getTime]. *)
Definition time_value (t : Z) : Prop :=
  (-8640000000000000 <= t <= 8640000000000000)%Z.

(** The triples the codec is meant for. *)
Definition valid_triple (fileId userIP : jsstring) (expiresAt : Z) : Prop :=
  latin1 fileId /\ colon_free fileId /\ latin1 userIP /\ colon_free userIP
  /\ time_value expiresAt.

(* ===================================================================== *)
(** * A concrete deployment                                               *)
(* ===================================================================== *)

Definition example_bot_token : jsstring := js "123456:SECRET".

Definition example_getFile_url : jsstring :=
  js "https://api.telegram.org/bot123456:SECRET/getFile?file_id=FILE123".

Definition example_reply : TgReply :=
  {| tg_ok := true;
     tg_result := Some {| file_path := Some (js "videos/file_7.mp4");
                          file_size := Some 1048576%Z |} |}.

(** The bot API: [getFile] answers with [example_reply]; the download
    answers with a few bytes and the headers [upstream]. *)
Definition example_fetch (upstream : Headers) (url : jsstring)
  : completion FetchResponse :=
  if bool_decide (url = example_getFile_url) then
    Normal {| resp_ok := true; resp_status := 200;
              resp_headers := {[ js "content-type" := js "application/json" ]};
              resp_body := [];
              resp_json := Normal example_reply |}
  else
    Normal {| resp_ok := true; resp_status := 200;
              resp_headers := upstream;
              resp_body := [0; 0; 0; 24; 102; 116; 121; 112];
              resp_json := Throw SyntaxError |}.

(** A deployment at instant 1700000000000 whose analytics INSERT
    completes as [analytics] and whose file host sends [upstream]. *)
Definition example_world (analytics : completion unit) (upstream : Headers)
  : World :=
  {| date_now := 1700000000000;
     TELEGRAM_BOT_TOKEN := Some example_bot_token;
     db_first := fun slug => Normal (Some {| movie_id := 7 |});
     db_run := fun row => analytics;
     net_fetch := example_fetch upstream |}.

(** [POST /api/telegram/get-file-url] for FILE123 of movie-x from [ip]. *)
Definition example_issue (ip : jsstring) : IssueRequest :=
  {| issue_json := Normal (Some (js "FILE123", js "movie-x"));
     issue_headers := {[ js "cf-connecting-ip" := ip;
                         js "user-agent" := js "Mozilla/5.0" ]} |}.

(** [GET /api/telegram/stream/:token] from [ip]. *)
Definition example_stream (token ip : jsstring) : StreamRequest :=
  {| param_token := token;
     stream_headers := {[ js "cf-connecting-ip" := ip ]} |}.

(** The token that [example_issue] obtains for the caller 203.0.113.7:
    the payload [FILE123:203.0.113.7:1700003600000]. *)
Definition example_token : jsstring :=
  js "RklMRTEyMzoyMDMuMC4xMTMuNzoxNzAwMDAzNjAwMDAw".

(** The token that it obtains for the IPv6 caller 2001:db8::1: the
    payload [FILE123:2001:db8::1:1700003600000]. *)
Definition example_token_ipv6 : jsstring :=
  js "RklMRTEyMzoyMDAxOmRiODo6MToxNzAwMDAzNjAwMDAw".

(** A file host that announces a content type and no content length. *)
Definition example_chunked : Headers := {[ js "content-type" := js "video/mp4" ]}.

(** The same deployment one millisecond after [example_token] expired. *)
Definition example_world_later : World :=
  {| date_now := 1700003600001;
     TELEGRAM_BOT_TOKEN := Some example_bot_token;
     db_first := fun slug => Normal (Some {| movie_id := 7 |});
     db_run := fun row => Normal ();
     net_fetch := example_fetch example_chunked |}.

(** The analytics row of [example_issue] for the caller 203.0.113.7. *)
Definition example_row : AnalyticsRow :=
  {| event_type := js "video_access_request";
     page_url := js "/watch/movie-x";
     row_movie_id := 7;
     user_ip := js "203.0.113.7";
     user_agent := Some (js "Mozilla/5.0") |}.

(** The answer to [example_issue] for the caller 203.0.113.7. *)
Definition example_answer : response :=
  JsonResponse
    (JVideo (js "/api/telegram/stream/" ++ example_token)
            (js "https://api.telegram.org/file/bot123456:SECRET/videos/file_7.mp4")
            (js "2023-11-14T23:13:20.000Z")
            (Some 1048576%Z))
    200.

(* ===================================================================== *)
(** * Further vocabulary for the token                                    *)
(* ===================================================================== *)

(** The characters that need no escaping in a URL path segment and that
    a token is made of: letters, digits, ['-'] and ['_']. *)
Definition is_token_char (c : char) : bool :=
  ((65 <=? c) && (c <=? 90)) || ((97 <=? c) && (c <=? 122))
  || ((48 <=? c) && (c <=? 57)) || (c =? 45) || (c =? 95).

(* ===================================================================== *)
(** * Further concrete deployments                                        *)
(* ===================================================================== *)

(** A deployment in which no movie is published. *)
Definition example_world_unpublished : World :=
  {| date_now := 1700000000000;
     TELEGRAM_BOT_TOKEN := Some example_bot_token;
     db_first := fun slug => Normal None;
     db_run := fun row => Normal ();
     net_fetch := example_fetch ∅ |}.

(** A deployment whose bot API answers [example_reply] to every request. *)
Definition example_world_lenient : World :=
  {| date_now := 1700000000000;
     TELEGRAM_BOT_TOKEN := Some example_bot_token;
     db_first := fun slug => Normal (Some {| movie_id := 7 |});
     db_run := fun row => Normal ();
     net_fetch := fun url =>
       Normal {| resp_ok := true; resp_status := 200;
                 resp_headers := ∅; resp_body := [];
                 resp_json := Normal example_reply |} |}.

(** An issuance request for the file id [F€], whose second code unit is
    U+20AC. *)
Definition example_issue_euro : IssueRequest :=
  {| issue_json := Normal (Some ([70; 8364], js "movie-x"));
     issue_headers := {[ js "cf-connecting-ip" := js "203.0.113.7" ]} |}.

(* ===================================================================== *)
(** * [GET /api/telegram/video-info/:file_id]                             *)
(* ===================================================================== *)

(** The bodies that [c.json] serialises in the video-info handler. *)
Inductive info_answer : Type :=
  | InfoError (error : jsstring) (status : Z)              (* success: false *)
  | InfoFile (file_info : TgFile) (download_url : jsstring). (* success: true *)

(** [app.get('/api/telegram/video-info/:file_id', ...)]. *)
Definition video_info (w : World) (fileId : jsstring) : io info_answer :=
  try_catch_io
    (let botToken := TELEGRAM_BOT_TOKEN w in
     if negb (truthy botToken) then
       mret (InfoError (js "Bot token not configured") 500)
     else
       let botToken := default [] botToken in
       response ← fetch w (js "https://api.telegram.org/bot" ++ botToken
                             ++ js "/getFile?file_id=" ++ fileId);
       data ← lift (resp_json response);
       if tg_ok data then
         result ← lift (match tg_result data with
                        | Some r => Normal r
                        | None => Throw TypeError
                        end);
         mret (InfoFile result
                 (js "https://api.telegram.org/file/bot" ++ botToken ++ js "/"
                    ++ to_string (from_option Str Undefined (file_path result))))
       else
         mret (InfoError (js "File not found") 404))
    (fun error => mret (InfoError (js "Failed to get file info") 500)).

(* ===================================================================== *)
(** * Analytics tracking ([POST /api/analytics], [/api/analytics/batch])  *)
(* ===================================================================== *)

(** The JSON values that the analytics handlers pass around.  [JOther]
    is any value that is truthy and no string: an object, an array, a
    number that is not an integer. *)
Inductive json : Type :=
  | JUndefined
  | JNull
  | JBool (b : bool)
  | JNum (n : Z)
  | JStr (s : jsstring)
  | JOther.

#[export] Instance json_eq_dec : EqDecision json.
Proof. solve_decision. Defined.

(** [ToBoolean]. *)
Definition json_truthy (v : json) : bool :=
  match v with
  | JUndefined | JNull => false
  | JBool b => b
  | JNum n => negb (n =? 0)%Z
  | JStr s => match s with [] => false | _ => true end
  | JOther => true
  end.

(** [v || null]. *)
Definition or_null (v : json) : json := if json_truthy v then v else JNull.

(** Computations with effects of type [E]: a completion together with
    the effects so far. *)
Definition eff (E A : Type) : Type := list E -> completion A * list E.

#[export] Instance eff_ret {E} : MRet (eff E) := fun A a tr => (Normal a, tr).
#[export] Instance eff_bind {E} : MBind (eff E) := fun A B f m tr =>
  match m tr with
  | (Normal a, tr') => f a tr'
  | (Throw e, tr') => (Throw e, tr')
  end.

Definition lift_eff {E A} (c : completion A) : eff E A := fun tr => (c, tr).

Definition perform_eff {E A} (ev : E) (result : completion A) : eff E A :=
  fun tr => (result, tr ++ [ev]).

Definition try_catch_eff {E A} (body : eff E A) (handler : exn -> eff E A)
  : eff E A :=
  fun tr =>
    match body tr with
    | (Normal a, tr') => (Normal a, tr')
    | (Throw e, tr') => handler e tr'
    end.

Definition run_eff {E A} (m : eff E A) : completion A * list E := m [].

(** The values bound to [INSERT INTO analytics (event_type, page_url,
    blog_id, movie_id, user_ip, user_agent, referrer, session_id, ...)]. *)
Record EventRow := {
  ev_event_type : json;
  ev_page_url : json;
  ev_blog_id : json;
  ev_movie_id : json;
  ev_user_ip : jsstring;
  ev_user_agent : jsstring;
  ev_referrer : option jsstring;         (* [None] is [null] *)
  ev_session_id : json
}.

(** The effects of the analytics handlers. *)
Inductive an_event : Type :=
  | AnInsert (row : EventRow)
  | AnInsertMetadata (analytics_id : json) (metadata : json)
      (* bound: the id and [JSON.stringify(metadata)] *)
  | AnConsoleError (error : exn).

(** The database and the clock of an analytics request.  [an_insert n]
    is the outcome of the INSERT for the [n]-th event of the request:
    the [meta.last_row_id] of its result. *)
Record AnalyticsEnv := {
  an_now : Z;
  an_insert : nat -> EventRow -> completion json;
  an_insert_metadata : json -> json -> completion unit
}.

(** A JSON object as the handlers destructure it. *)
Record EventObject := {
  o_event_type : json;
  o_page_url : json;
  o_blog_id : json;
  o_movie_id : json;
  o_metadata : json;
  o_session_id : json
}.

(** A parsed JSON value where an object is expected: [None] is [null],
    on which every property access throws a TypeError. *)
Abbreviation nullable := option.

Definition validEventTypes : list jsstring :=
  [js "page_view"; js "blog_view"; js "video_view"; js "watch_button_click";
   js "ad_click"; js "video_play"; js "video_pause"; js "video_error";
   js "video_loaded"; js "unlock_timer_start"; js "unlock_timer_complete";
   js "unlock_button_click"; js "telegram_stream_start";
   js "standard_stream_start"; js "ad_view"; js "monetization_ad_view";
   js "monetization_unlock_timer_start"; js "monetization_unlock_timer_complete"].

(** [list.includes(v)] for a list of strings. *)
Definition includes (l : list jsstring) (v : json) : bool :=
  existsb (fun t => bool_decide (v = JStr t)) l.

(** Property access [o.p] on a value that may be [null]. *)
Definition get {A} (o : nullable EventObject) (p : EventObject -> A)
  : completion A :=
  match o with
  | Some o => Normal (p o)
  | None => Throw TypeError
  end.

Record AnalyticsRequest := {
  an_json : completion (nullable EventObject);     (* [await c.req.json()] *)
  an_headers : Headers
}.

Inductive analytics_answer : Type :=
  | AnOk (analytics_id : json) (timestamp : jsstring)  (* success: true *)
  | AnError (error : jsstring) (status : Z)            (* success: false *)
  | AnFailed (error : jsstring) (debug : exn).         (* 500, debug: error.message *)

(** [app.post('/api/analytics', ...)]. *)
Definition track (env : AnalyticsEnv) (req : AnalyticsRequest)
  : eff an_event analytics_answer :=
  try_catch_eff
    (body ← lift_eff (an_json req);
     event_type ← lift_eff (get body o_event_type);
     page_url ← lift_eff (get body o_page_url);
     blog_id ← lift_eff (get body o_blog_id);
     movie_id ← lift_eff (get body o_movie_id);
     metadata ← lift_eff (get body o_metadata);
     session_id ← lift_eff (get body o_session_id);
     let userIP := caller_ip (an_headers req) in
     let userAgent := or_lit (headers_get (an_headers req) (js "User-Agent"))
                             (js "unknown") in
     let referrer := or_else (headers_get (an_headers req) (js "Referer")) None in
     (* Validate event type *)
     if negb (includes validEventTypes event_type) then
       mret (AnError (js "Invalid event type") 400)
     else
       (* Insert analytics record *)
       let row :=
         {| ev_event_type := event_type; ev_page_url := page_url;
            ev_blog_id := or_null blog_id; ev_movie_id := or_null movie_id;
            ev_user_ip := userIP; ev_user_agent := userAgent;
            ev_referrer := referrer; ev_session_id := or_null session_id |} in
       last_row_id ← perform_eff (AnInsert row) (an_insert env 0 row);
       (* Log metadata if provided *)
       _ ← (if json_truthy metadata && json_truthy last_row_id then
              try_catch_eff
                (perform_eff (AnInsertMetadata last_row_id metadata)
                             (an_insert_metadata env last_row_id metadata))
                (fun _ => (* Ignore metadata errors *) mret ())
            else mret ());
       timestamp ← lift_eff (toISOString (time_clip (an_now env)));
       mret (AnOk last_row_id timestamp))
    (fun error =>
       _ ← perform_eff (AnConsoleError error) (Normal ());
       mret (AnFailed (js "Analytics tracking failed") error)).

(** What [const { events } = await c.req.json()] binds: anything that
    is no array, or an array of values. *)
Inductive events_value : Type :=
  | NotArray
  | EventArray (events : list (nullable EventObject)).

Record BatchRequest := {
  batch_json : completion (nullable events_value);
  batch_headers : Headers
}.

(** An entry of [errors]: the event's type and the error thrown (the
    source keeps its message). *)
Definition error_entry : Type := json * exn.

Inductive batch_answer : Type :=
  | BatchOk (processed successful failed : nat) (errors : list error_entry)
  | BatchError (error : jsstring) (status : Z).

(** The [for (const event of events)] loop: [i] is the index of the next
    event; the result is [successCount] and [errors]. *)
Fixpoint batch_loop (env : AnalyticsEnv) (userIP userAgent : jsstring)
    (referrer : option jsstring) (events : list (nullable EventObject))
    (i successCount : nat) (errors : list error_entry)
  : eff an_event (nat * list error_entry) :=
  match events with
  | [] => mret (successCount, errors)
  | event :: rest =>
      '(successCount, errors) ←
        try_catch_eff
          (event_type ← lift_eff (get event o_event_type);
           page_url ← lift_eff (get event o_page_url);
           blog_id ← lift_eff (get event o_blog_id);
           movie_id ← lift_eff (get event o_movie_id);
           session_id ← lift_eff (get event o_session_id);
           let row :=
             {| ev_event_type := event_type; ev_page_url := page_url;
                ev_blog_id := or_null blog_id; ev_movie_id := or_null movie_id;
                ev_user_ip := userIP; ev_user_agent := userAgent;
                ev_referrer := referrer; ev_session_id := or_null session_id |} in
           _ ← perform_eff (AnInsert row) (an_insert env i row);
           mret (S successCount, errors))
          (fun error =>
             event_type ← lift_eff (get event o_event_type);
             mret (successCount, errors ++ [(event_type, error)]));
      batch_loop env userIP userAgent referrer rest (S i) successCount errors
  end.

(** [app.post('/api/analytics/batch', ...)]. *)
Definition track_batch (env : AnalyticsEnv) (req : BatchRequest)
  : eff an_event batch_answer :=
  try_catch_eff
    (body ← lift_eff (batch_json req);
     events ← lift_eff (match body with
                        | Some v => Normal v
                        | None => Throw TypeError
                        end);
     match events with
     | NotArray => mret (BatchError (js "Invalid events array") 400)
     | EventArray events =>
         if bool_decide (length events = 0)%nat then
           mret (BatchError (js "Invalid events array") 400)
         else if bool_decide (100 < length events)%nat then
           mret (BatchError (js "Too many events in batch (max 100)") 400)
         else
           let userIP := caller_ip (batch_headers req) in
           let userAgent :=
             or_lit (headers_get (batch_headers req) (js "User-Agent"))
                    (js "unknown") in
           let referrer :=
             or_else (headers_get (batch_headers req) (js "Referer")) None in
           '(successCount, errors) ←
             batch_loop env userIP userAgent referrer events 0 0 [];
           mret (BatchOk (length events) successCount (length errors)
                         (take 5 errors))
     end)
    (fun error =>
       _ ← perform_eff (AnConsoleError error) (Normal ());
       mret (BatchError (js "Batch analytics failed") 500)).

(** The row that the handlers bind for the event object [o]. *)
Definition event_row (userIP userAgent : jsstring) (referrer : option jsstring)
    (o : EventObject) : EventRow :=
  {| ev_event_type := o_event_type o; ev_page_url := o_page_url o;
     ev_blog_id := or_null (o_blog_id o); ev_movie_id := or_null (o_movie_id o);
     ev_user_ip := userIP; ev_user_agent := userAgent;
     ev_referrer := referrer; ev_session_id := or_null (o_session_id o) |}.

(** The events of a batch whose INSERT throws, from index [i] on, each
    with the error thrown. *)
Fixpoint insert_failures (env : AnalyticsEnv) (userIP userAgent : jsstring)
    (referrer : option jsstring) (objs : list EventObject) (i : nat)
  : list error_entry :=
  match objs with
  | [] => []
  | o :: rest =>
      match an_insert env i (event_row userIP userAgent referrer o) with
      | Normal _ => insert_failures env userIP userAgent referrer rest (S i)
      | Throw e =>
          (o_event_type o, e)
            :: insert_failures env userIP userAgent referrer rest (S i)
      end
  end.

(** An analytics database in which the INSERT of every event with an odd
    index fails, and so does every metadata INSERT. *)
Definition example_analytics : AnalyticsEnv :=
  {| an_now := 1700000000000;
     an_insert := fun i row => if Nat.odd i then Throw D1Error
                               else Normal (JNum (Z.of_nat (41 + i)));
     an_insert_metadata := fun id metadata => Throw D1Error |}.

Definition example_event (event_type : jsstring) (metadata : json) : EventObject :=
  {| o_event_type := JStr event_type; o_page_url := JStr (js "/watch/movie-x");
     o_blog_id := JUndefined; o_movie_id := JNum 7;
     o_metadata := metadata; o_session_id := JStr (js "s1") |}.

(* ===================================================================== *)
(** * Proofs: the JavaScript built-ins                                    *)
(* ===================================================================== *)

(** Case analysis on every comparison of code units in the goal. *)
Ltac char_cases :=
  repeat match goal with
    | |- context [N.ltb ?a ?b] => destruct (N.ltb_spec a b); try lia
    | |- context [N.leb ?a ?b] => destruct (N.leb_spec a b); try lia
    | |- context [N.eqb ?a ?b] => destruct (N.eqb_spec a b); try lia
    end;
  simpl; try done; try lia.

(** [lia] on goals with division and remainder by constants. *)
Ltac Zify.zify_post_hook ::= Z.to_euclidean_division_equations.

Section Base64.

Lemma list_ind3 {A} (P : list A -> Prop) :
  P [] -> (forall a, P [a]) -> (forall a b, P [a; b]) ->
  (forall a b c r, P r -> P (a :: b :: c :: r)) ->
  forall l, P l.
Proof.
  intros H0 H1 H2 H3. fix IH 1.
  intros [|a [|b [|c r]]]; [exact H0 | exact (H1 a) | exact (H2 a b) |].
  apply H3, IH.
Qed.

Lemma b64_index_char i : i < 64 -> b64_index (b64_char i) = Some i.
Proof.
  intros Hi. unfold b64_index, b64_char.
  char_cases; f_equal; lia.
Qed.

(** No character of the alphabet is ['='], ['-'], ['_'] or white space. *)
Lemma b64_char_plain i :
  i < 64 ->
  b64_char i <> 61 /\ b64_char i <> 45 /\ b64_char i <> 95
  /\ is_ascii_whitespace (b64_char i) = false.
Proof.
  intros Hi. unfold is_ascii_whitespace, b64_char.
  char_cases; repeat split; lia.
Qed.

Lemma sextets_bound l :
  Forall (fun c => c < 256) l -> Forall (fun s => s < 64) (sextets_of_octets l).
Proof.
  induction l as [|a|a b|a b c r IH] using list_ind3; intros H; simpl;
    decompose_Forall_hyps; repeat constructor; try lia.
  by apply IH.
Qed.

Lemma octets_of_sextets_of_octets l :
  Forall (fun c => c < 256) l -> octets_of_sextets (sextets_of_octets l) = l.
Proof.
  induction l as [|a|a b|a b c r IH] using list_ind3; intros H; simpl;
    decompose_Forall_hyps; try rewrite IH by done; repeat f_equal; lia.
Qed.

Lemma sextets_length l :
  (length (sextets_of_octets l) mod 4 <> 1
   /\ (4 - length (sextets_of_octets l) mod 4) mod 4 = (3 - length l mod 3) mod 3)%nat.
Proof.
  induction l as [|a|a b|a b c r IH] using list_ind3;
    cbn [sextets_of_octets length]; lia.
Qed.

Lemma filter_whitespace_id (s : jsstring) :
  Forall (fun c => is_ascii_whitespace c = false) s ->
  filter (fun c => is_ascii_whitespace c = false) s = s.
Proof.
  induction 1 as [|c s Hc _ IH]; [done|].
  rewrite filter_cons_True by done. by rewrite IH.
Qed.

Lemma mapM_b64_index sx :
  Forall (fun s => s < 64) sx -> mapM b64_index (b64_char <$> sx) = Some sx.
Proof.
  induction 1 as [|i sx Hi _ IH]; [done|].
  cbn. rewrite b64_index_char by done. cbn. by rewrite IH.
Qed.

(** Stripping the padding that [k] missing sextets call for. *)
Lemma strip_padding_app (body : jsstring) k :
  Forall (fun c => c <> 61) body ->
  (k <= 2)%nat -> ((length body + k) mod 4 = 0)%nat ->
  strip_padding (body ++ replicate k 61) = body.
Proof.
  intros Hbody Hk Hlen. unfold strip_padding.
  rewrite decide_True by (by rewrite length_app, length_replicate).
  destruct k as [|[|[|k]]]; [| | |lia]; cbn [replicate].
  - rewrite app_nil_r.
    destruct (reverse body) as [|c1 [|c2 r]] eqn:Hrev; [done..|].
    assert (Hin : c1 ∈ body).
    { apply elem_of_reverse. rewrite Hrev. left. }
    rewrite Forall_forall in Hbody. apply Hbody in Hin.
    by rewrite (proj2 (N.eqb_neq _ _) Hin).
  - rewrite reverse_app. change (reverse [61]) with [61]. cbn -[reverse].
    destruct (reverse body) as [|c2 r] eqn:Hrev.
    { apply (f_equal length) in Hrev. rewrite length_reverse in Hrev.
      cbn in Hrev. rewrite Hrev in Hlen. done. }
    assert (Hin : c2 ∈ body).
    { apply elem_of_reverse. rewrite Hrev. left. }
    rewrite Forall_forall in Hbody. apply Hbody in Hin.
    rewrite (proj2 (N.eqb_neq _ _) Hin).
    by rewrite <- Hrev, reverse_involutive.
  - rewrite reverse_app. change (reverse [61; 61]) with [61; 61].
    cbn -[reverse]. by rewrite reverse_involutive.
Qed.

Lemma atob_base64_encode l :
  Forall (fun c => c < 256) l -> atob (base64_encode l) = Normal l.
Proof.
  intros Hl. pose proof (sextets_bound l Hl) as Hsx.
  destruct (sextets_length l) as [Hne1 Hpad].
  assert (Hplain : Forall (fun c => c <> 61 /\ is_ascii_whitespace c = false)
                          (b64_char <$> sextets_of_octets l)).
  { apply Forall_fmap. eapply Forall_impl; [exact Hsx|].
    intros i Hi. cbn. destruct (b64_char_plain i Hi) as (?&?&?&?). done. }
  unfold atob, base64_encode, b64_padding, repeat_char.
  rewrite filter_whitespace_id.
  2:{ apply Forall_app. split; [by eapply Forall_impl; [exact Hplain|]; intros ? []|].
      by apply Forall_replicate. }
  rewrite strip_padding_app.
  - rewrite decide_False by (by rewrite length_fmap).
    rewrite mapM_b64_index by done. cbn.
    by rewrite octets_of_sextets_of_octets.
  - by eapply Forall_impl; [exact Hplain|]; intros ? [].
  - lia.
  - rewrite length_fmap. lia.
Qed.

End Base64.

Section Numbers.

Lemma digits_le_value f n : n < 2 ^ N.of_nat f -> value_le (digits_le (S f) n) = n.
Proof.
  revert n. induction f as [|f IH]; intros n Hn.
  - cbn in Hn. assert (n = 0) as -> by lia. done.
  - cbn [digits_le]. destruct (N.ltb_spec n 10) as [Hlt|Hge].
    + cbn [value_le]. lia.
    + change (value_le (n mod 10 :: digits_le (S f) (n / 10)) = n).
      cbn [value_le]. rewrite IH; [lia|].
      rewrite Nat2N.inj_succ, N.pow_succ_r' in Hn. lia.
Qed.

Lemma digits_le_bound f n : Forall (fun d => d < 10) (digits_le f n).
Proof.
  revert n. induction f as [|f IH]; intros n; cbn [digits_le]; constructor.
  - lia.
  - destruct (n <? 10); [constructor|apply IH].
Qed.

Lemma horner_app radix ds d :
  horner radix (ds ++ [d]) = horner radix ds * radix + d.
Proof. unfold horner. by rewrite fold_left_app. Qed.

Lemma horner_reverse ds : horner 10 (reverse ds) = value_le ds.
Proof.
  induction ds as [|d r IH]; [done|].
  rewrite reverse_cons, horner_app, IH. cbn [value_le]. lia.
Qed.

Lemma digit_prefix_digits ds :
  Forall (fun d => d < 10) ds ->
  digit_prefix 10 ((fun d => 48 + d) <$> ds) = ds.
Proof.
  induction 1 as [|d r Hd _ IH]; [done|].
  cbn [fmap list_fmap digit_prefix]. unfold digit_value.
  replace ((48 <=? 48 + d) && (48 + d <=? 57)) with true by (char_cases).
  replace (48 + d - 48) with d by lia.
  replace (d <? 10) with true by (char_cases).
  by rewrite IH.
Qed.

Lemma size_nat_bound n : n < 2 ^ N.of_nat (N.size_nat n).
Proof.
  destruct n as [|p]; [done|]. cbn [N.size_nat].
  induction p as [p IH|p IH|]; cbn [Pos.size_nat];
    rewrite ?Nat2N.inj_succ, ?N.pow_succ_r'; [lia..|done].
Qed.

Lemma horner_decimal n :
  digit_prefix 10 (decimal n) <> []
  /\ horner 10 (digit_prefix 10 (decimal n)) = n.
Proof.
  unfold decimal. rewrite <- fmap_reverse.
  rewrite digit_prefix_digits
    by (apply Forall_reverse, digits_le_bound).
  split.
  - intros Hnil. apply (f_equal reverse) in Hnil.
    by rewrite reverse_involutive in Hnil.
  - rewrite horner_reverse. apply digits_le_value, size_nat_bound.
Qed.

(** The first character of a decimal numeral is a digit. *)
Lemma decimal_head n :
  exists d r, decimal n = (48 + d) :: r /\ d < 10
              /\ Forall (fun c => 48 <= c <= 57) r.
Proof.
  unfold decimal. rewrite <- fmap_reverse.
  pose proof (digits_le_bound (S (N.size_nat n)) n) as Hb.
  apply Forall_reverse in Hb.
  destruct (reverse (digits_le (S (N.size_nat n)) n)) as [|d r] eqn:Hrev.
  { apply (f_equal reverse) in Hrev. by rewrite reverse_involutive in Hrev. }
  decompose_Forall_hyps. exists d, ((fun d => 48 + d) <$> r).
  repeat split; [done|]. apply Forall_fmap.
  eapply Forall_impl; [eassumption|]. intros x Hx.
  unfold compose. cbv beta in *. clear Hrev. lia.
Qed.

Lemma parseInt_decimal sign n :
  (sign = 1 \/ sign = -1)%Z ->
  parseInt (Str (if (sign =? 1)%Z then decimal n else 45 :: decimal n))
  = Num (sign * Z.of_N n).
Proof.
  intros Hsign. destruct (horner_decimal n) as [Hne Hval].
  destruct (decimal_head n) as (d & r & Hd & Hlt & Hr).
  assert (Hws : trim_start (decimal n) = decimal n).
  { rewrite Hd. cbn [trim_start].
    by replace (is_str_whitespace (48 + d)) with false
      by (unfold is_str_whitespace; char_cases). }
  assert (Hsg : strip_sign (decimal n) = (1%Z, decimal n)).
  { rewrite Hd. unfold strip_sign.
    replace (48 + d =? 45) with false by char_cases.
    by replace (48 + d =? 43) with false by char_cases. }
  assert (Hrad : strip_radix_prefix (decimal n) = (10, decimal n)).
  { rewrite Hd. unfold strip_radix_prefix.
    destruct r as [|c1 r']; [done|]. decompose_Forall_hyps.
    replace (c1 =? 120) with false by char_cases.
    replace (c1 =? 88) with false by char_cases.
    by rewrite andb_false_r. }
  unfold parseInt. cbn [to_string].
  destruct Hsign as [-> | ->]; cbn [Z.eqb Pos.eqb].
  - rewrite Hws, Hsg, Hrad.
    destruct (digit_prefix 10 (decimal n)); [done|]. by rewrite Hval.
  - cbn [trim_start]. replace (is_str_whitespace 45) with false by done.
    cbn [strip_sign]. replace (45 =? 45) with true by done. rewrite Hrad.
    destruct (digit_prefix 10 (decimal n)); [done|]. by rewrite Hval.
Qed.

Lemma parseInt_number_to_string z :
  parseInt (Str (number_to_string (Num z))) = Num z.
Proof.
  unfold number_to_string. destruct (Z.ltb_spec z 0) as [Hneg|Hnn].
  - etrans; [exact (parseInt_decimal (-1) (Z.to_N (- z)) (or_intror eq_refl))|].
    f_equal. lia.
  - etrans; [exact (parseInt_decimal 1 (Z.to_N z) (or_introl eq_refl))|].
    f_equal. lia.
Qed.

End Numbers.

Section Strings.

Lemma latin1_Forall s : latin1 s <-> Forall (fun c => c < 256) s.
Proof.
  unfold latin1. induction s as [|c s IH]; cbn [forallb].
  - split; [constructor|done].
  - rewrite andb_true_iff, IH, Forall_cons, N.leb_le. intuition lia.
Qed.

Lemma latin1_app a b : latin1 (a ++ b) <-> latin1 a /\ latin1 b.
Proof. by rewrite !latin1_Forall, Forall_app. Qed.

Lemma colon_free_Forall s : colon_free s <-> Forall (fun c => c <> 58) s.
Proof.
  unfold colon_free. induction s as [|c s IH]; cbn [forallb].
  - split; [constructor|done].
  - rewrite andb_true_iff, IH, Forall_cons, negb_true_iff, N.eqb_neq. done.
Qed.

Lemma decimal_chars n : Forall (fun c => 48 <= c <= 57) (decimal n).
Proof.
  destruct (decimal_head n) as (d & r & -> & Hd & Hr).
  constructor; [lia|done].
Qed.

Lemma number_to_string_chars z :
  Forall (fun c => c = 45 \/ 48 <= c <= 57) (number_to_string (Num z)).
Proof.
  unfold number_to_string. destruct (z <? 0)%Z.
  - constructor; [by left|].
    eapply Forall_impl; [apply decimal_chars|]. by right.
  - eapply Forall_impl; [apply decimal_chars|]. by right.
Qed.

Lemma number_to_string_latin1 e : latin1 (number_to_string e).
Proof.
  destruct e as [|z]; [done|]. apply latin1_Forall.
  eapply Forall_impl; [apply number_to_string_chars|].
  intros c Hc. cbv beta in Hc. lia.
Qed.

Lemma number_to_string_colon_free z : colon_free (number_to_string (Num z)).
Proof.
  apply colon_free_Forall.
  eapply Forall_impl; [apply number_to_string_chars|].
  intros c Hc. cbv beta in Hc. lia.
Qed.

Lemma split_colon_free s : colon_free s -> split 58 s = [s].
Proof.
  rewrite colon_free_Forall. induction 1 as [|c s Hc _ IH]; [done|].
  cbn [split]. rewrite (proj2 (N.eqb_neq _ _) Hc). by rewrite IH.
Qed.

Lemma split_app a r :
  colon_free a -> split 58 (a ++ 58 :: r) = a :: split 58 r.
Proof.
  rewrite colon_free_Forall. induction 1 as [|c s Hc _ IH]; [done|].
  cbn [app split]. rewrite (proj2 (N.eqb_neq _ _) Hc). by rewrite IH.
Qed.

Lemma split_three a b c :
  colon_free a -> colon_free b -> colon_free c ->
  split 58 (a ++ js ":" ++ b ++ js ":" ++ c) = [a; b; c].
Proof.
  intros Ha Hb Hc. change (js ":") with [58]. cbn [app].
  by rewrite split_app, split_app, split_colon_free.
Qed.

End Strings.

Section Token.

(** What the replacement callback of [generateTempToken] does to one
    character. *)
Lemma url_safe_char c :
  (if (c =? 43) || (c =? 47) || (c =? 61)
   then default [] (or_else (url_table c) (Some []))
   else [c])
  = if c =? 61 then [] else [spec_remap c].
Proof. unfold url_table, spec_remap. char_cases. Qed.

Lemma replace_url_safe (body : jsstring) k :
  Forall (fun c => c <> 61) body ->
  replace_class (fun c => (c =? 43) || (c =? 47) || (c =? 61))
                (fun m => default [] (or_else (url_table m) (Some [])))
                (body ++ replicate k 61)
  = spec_remap <$> body.
Proof.
  intros Hbody. unfold replace_class. rewrite bind_app.
  assert (Hpad : forall f : char -> jsstring, f 61 = [] -> replicate k 61 ≫= f = []).
  { intros f Hf. induction k as [|k IH]; [done|].
    cbn [replicate]. by rewrite bind_cons, Hf, IH. }
  rewrite Hpad, app_nil_r by done.
  induction Hbody as [|c s Hc _ IH]; [done|].
  rewrite bind_cons, IH, url_safe_char.
  by rewrite (proj2 (N.eqb_neq _ _) Hc).
Qed.

Lemma replace_url_unsafe (body : jsstring) :
  Forall (fun c => c <> 45 /\ c <> 95) body ->
  replace_char 95 (js "/") (replace_char 45 (js "+") (spec_remap <$> body))
  = body.
Proof.
  unfold replace_char, replace_class.
  induction 1 as [|c s [Hc1 Hc2] _ IH]; [done|].
  rewrite fmap_cons, bind_cons, bind_app, IH.
  change (js "/") with [47]. change (js "+") with [43]. unfold spec_remap.
  destruct (N.eqb_spec c 43) as [->|?]; [done|].
  destruct (N.eqb_spec c 47) as [->|?]; [done|].
  rewrite (proj2 (N.eqb_neq c 45)) by done. rewrite bind_cons.
  by rewrite (proj2 (N.eqb_neq c 95)).
Qed.

Lemma strip_end_app (body : jsstring) k :
  Forall (fun c => c <> 61) body ->
  strip_end 61 (body ++ replicate k 61) = body.
Proof.
  intros Hbody.
  assert (Hpad : strip_end 61 (replicate k 61) = []).
  { induction k as [|k IH]; [done|]. cbn [replicate strip_end]. by rewrite IH. }
  induction Hbody as [|c s Hc _ IH]; [by rewrite app_nil_l|].
  cbn [app strip_end]. rewrite IH.
  destruct s; [|done]. by rewrite (proj2 (N.eqb_neq _ _) Hc).
Qed.

(** The characters of an encoded body. *)
Lemma encoded_body_chars l :
  Forall (fun c => c < 256) l ->
  Forall (fun c => c <> 61 /\ c <> 45 /\ c <> 95)
         (b64_char <$> sextets_of_octets l).
Proof.
  intros Hl. apply Forall_fmap.
  eapply Forall_impl; [apply sextets_bound, Hl|].
  intros i Hi. cbn. destruct (b64_char_plain i Hi) as (?&?&?&?). done.
Qed.

(** [generateTempToken] in closed form. *)
Lemma generateTempToken_eq fileId userIP expiresAt :
  let data := fileId ++ js ":" ++ userIP ++ js ":" ++ number_to_string expiresAt in
  generateTempToken fileId userIP expiresAt
  = if forallb (fun c => c <=? 255) data
    then Normal (spec_remap <$> (b64_char <$> sextets_of_octets data))
    else Throw InvalidCharacterError.
Proof.
  intros data. unfold generateTempToken, btoa. fold data.
  destruct (forallb (fun c => c <=? 255) data) eqn:Hlat; [|done].
  cbn. f_equal. unfold base64_encode, b64_padding, repeat_char.
  apply replace_url_safe.
  eapply Forall_impl; [apply encoded_body_chars; by apply latin1_Forall|].
  by intros ? (?&?&?).
Qed.

(** The payload of a generated token is the colon-joined triple. *)
Lemma token_payload_generate fileId userIP expiresAt token :
  generateTempToken fileId userIP expiresAt = Normal token ->
  token_payload token
  = Normal (fileId ++ js ":" ++ userIP ++ js ":" ++ number_to_string expiresAt).
Proof.
  rewrite generateTempToken_eq. cbv zeta.
  set (data := fileId ++ _).
  destruct (forallb (fun c => c <=? 255) data) eqn:Hlat; [|done]. intros [= <-].
  apply latin1_Forall in Hlat.
  pose proof (encoded_body_chars data Hlat) as Hchars.
  destruct (sextets_length data) as [_ Hpad].
  unfold token_payload. rewrite replace_url_unsafe.
  2:{ eapply Forall_impl; [exact Hchars|]. by intros ? (?&?&?). }
  rewrite !length_fmap, Hpad.
  by apply atob_base64_encode.
Qed.

Lemma generateTempToken_latin1 fileId userIP expiresAt :
  latin1 fileId -> latin1 userIP ->
  exists token, generateTempToken fileId userIP expiresAt = Normal token.
Proof.
  intros Hf Hip. rewrite generateTempToken_eq. cbv zeta.
  assert (Hlat : latin1 (fileId ++ js ":" ++ userIP ++ js ":"
                           ++ number_to_string expiresAt)).
  { rewrite !latin1_app. repeat split; try done.
    apply number_to_string_latin1. }
  unfold latin1 in Hlat. rewrite Hlat. eauto.
Qed.

(** [verifyTempToken] is [decodeTempToken] followed by the expiry test. *)
Lemma verifyTempToken_decode token userIP now :
  verifyTempToken token userIP now
  = match decodeTempToken token with
    | Normal (fileId, _, expires) =>
        Normal (if js_gt (Num now) expires then None
                else Some (TokenData fileId expires))
    | Throw _ => Normal None
    end.
Proof.
  unfold verifyTempToken, decodeTempToken, token_payload.
  destruct (atob _) as [data|e]; [|done].
  cbn [mbind completion_bind mret completion_ret try_catch].
  by destruct (js_gt _ _).
Qed.

Lemma decodeTempToken_generate fileId userIP expiresAt token :
  colon_free fileId -> colon_free userIP ->
  generateTempToken fileId userIP (Num expiresAt) = Normal token ->
  decodeTempToken token = Normal (Str fileId, Str userIP, Num expiresAt).
Proof.
  intros Hf Hip Hgen. unfold decodeTempToken.
  rewrite (token_payload_generate _ _ _ _ Hgen). cbn [mbind completion_bind].
  rewrite split_three by (done || apply number_to_string_colon_free).
  cbn [element lookup list_lookup]. by rewrite parseInt_number_to_string.
Qed.

End Token.

(* ===================================================================== *)
(** * The token codec and the verifier                                    *)
(* ===================================================================== *)

Lemma spec_remap_plain i :
  i < 64 ->
  spec_remap (b64_char i) <> 43 /\ spec_remap (b64_char i) <> 47
  /\ spec_remap (b64_char i) <> 61.
Proof. intros Hi. unfold spec_remap, b64_char. char_cases; repeat split; lia. Qed.

(** C6: [generateTempToken] computes the reference encoding (join with
    [':'], standard base64, remap ['+'] and ['/'], strip the ['=']
    padding), so a produced token holds no ['+'], ['/'] or ['=']. *)
Theorem generateTempToken_reference fileId userIP expiresAt token :
  generateTempToken fileId userIP expiresAt = Normal token ->
  token = spec_encode fileId userIP expiresAt
  /\ (43 ∉ token) /\ (47 ∉ token) /\ (61 ∉ token).
Proof.
  rewrite generateTempToken_eq. cbv zeta. unfold spec_encode. cbn [join].
  set (data := fileId ++ _).
  destruct (forallb (fun c => c <=? 255) data) eqn:Hlat; [|done]. intros [= <-].
  apply latin1_Forall in Hlat.
  assert (Hplain : Forall (fun c => c <> 43 /\ c <> 47 /\ c <> 61)
                          (spec_remap <$> (b64_char <$> sextets_of_octets data))).
  { rewrite <- list_fmap_compose. apply Forall_fmap.
    eapply Forall_impl; [apply sextets_bound, Hlat|].
    intros i Hi. by apply spec_remap_plain. }
  split.
  - unfold base64_encode, b64_padding, repeat_char.
    rewrite fmap_app, fmap_replicate. change (spec_remap 61) with 61.
    rewrite strip_end_app; [done|].
    eapply Forall_impl; [exact Hplain|]. by intros ? (?&?&?).
  - rewrite Forall_forall in Hplain.
    repeat split; intros Hin; apply Hplain in Hin; by destruct Hin as (?&?&?).
Qed.

Lemma generateTempToken_reference_witness :
  generateTempToken (js "FILE123") (js "203.0.113.7") (Num 1700003600000)
  = Normal (js "RklMRTEyMzoyMDMuMC4xMTMuNzoxNzAwMDAzNjAwMDAw")
  /\ js "RklMRTEyMzoyMDMuMC4xMTMuNzoxNzAwMDAzNjAwMDAw"
     = spec_encode (js "FILE123") (js "203.0.113.7") (Num 1700003600000).
Proof.
  assert (H : generateTempToken (js "FILE123") (js "203.0.113.7") (Num 1700003600000)
              = Normal (js "RklMRTEyMzoyMDMuMC4xMTMuNzoxNzAwMDAzNjAwMDAw"))
    by (vm_compute; reflexivity).
  split; [exact H|]. exact (proj1 (generateTempToken_reference _ _ _ _ H)).
Defined.

(** C2: for every valid triple, decoding the token that encodes it gives
    the triple back: the three fields that [verifyTempToken] destructures
    from the token are the same file id, the same identity and the same
    expiry; [verifyTempToken] returns exactly what follows from these
    fields, and that is the file id and the expiry of the triple for every
    caller and at every instant up to the expiry. *)
Theorem decode_generate_roundtrip fileId userIP expiresAt :
  valid_triple fileId userIP expiresAt ->
  exists token,
    generateTempToken fileId userIP (Num expiresAt) = Normal token
    /\ decodeTempToken token = Normal (Str fileId, Str userIP, Num expiresAt)
    /\ (forall callerIP now,
          verifyTempToken token callerIP now
          = '(file_id, tokenIP, expires) ← decodeTempToken token;
            mret (if js_gt (Num now) expires then None
                  else Some (TokenData file_id expires)))
    /\ (forall callerIP now,
          (now <= expiresAt)%Z ->
          verifyTempToken token callerIP now
          = Normal (Some (TokenData (Str fileId) (Num expiresAt)))).
Proof.
  intros (Hf1 & Hf2 & Hip1 & Hip2 & _).
  destruct (generateTempToken_latin1 fileId userIP (Num expiresAt) Hf1 Hip1)
    as [token Hgen].
  pose proof (decodeTempToken_generate _ _ _ _ Hf2 Hip2 Hgen) as Hdec.
  exists token. split_and!; [done..| |].
  - intros callerIP now. by rewrite verifyTempToken_decode, Hdec.
  - intros callerIP now Hnow. rewrite verifyTempToken_decode, Hdec.
    cbn [js_gt]. by rewrite bool_decide_false by lia.
Qed.

Lemma decode_generate_roundtrip_witness :
  valid_triple (js "FILE123") (js "203.0.113.7") 1700003600000
  /\ exists token,
       generateTempToken (js "FILE123") (js "203.0.113.7") (Num 1700003600000)
       = Normal token
       /\ decodeTempToken token
          = Normal (Str (js "FILE123"), Str (js "203.0.113.7"), Num 1700003600000)
       /\ verifyTempToken token (js "198.51.100.9") 1700000000000
          = Normal (Some (TokenData (Str (js "FILE123")) (Num 1700003600000))).
Proof.
  assert (H : valid_triple (js "FILE123") (js "203.0.113.7") 1700003600000).
  { repeat split; try reflexivity; vm_compute; discriminate. }
  split; [exact H|].
  destruct (decode_generate_roundtrip _ _ _ H) as (token & Hgen & Hdec & _ & Hver).
  exists token. split; [exact Hgen|]. split; [exact Hdec|].
  apply Hver. vm_compute. discriminate.
Defined.

(** C4: verification checks [now <= expiresAt]: the token of a valid
    triple passes exactly when its expiry is not before [now]; with expiry
    [now - 1] it is rejected, with expiry [now + 1] it is accepted. *)
Theorem verify_expiry_boundary fileId userIP callerIP now expiresAt :
  valid_triple fileId userIP expiresAt ->
  exists token,
    generateTempToken fileId userIP (Num expiresAt) = Normal token
    /\ verifyTempToken token callerIP now
       = Normal (if bool_decide (now <= expiresAt)%Z
                 then Some (TokenData (Str fileId) (Num expiresAt))
                 else None)
    /\ (expiresAt = (now - 1)%Z -> verifyTempToken token callerIP now = Normal None)
    /\ (expiresAt = (now + 1)%Z ->
        verifyTempToken token callerIP now
        = Normal (Some (TokenData (Str fileId) (Num (now + 1))))).
Proof.
  intros (Hf1 & Hf2 & Hip1 & Hip2 & _).
  destruct (generateTempToken_latin1 fileId userIP (Num expiresAt) Hf1 Hip1)
    as [token Hgen].
  pose proof (decodeTempToken_generate _ _ _ _ Hf2 Hip2 Hgen) as Hdec.
  exists token. split; [done|].
  assert (Hver : verifyTempToken token callerIP now
                 = Normal (if bool_decide (now <= expiresAt)%Z
                           then Some (TokenData (Str fileId) (Num expiresAt))
                           else None)).
  { rewrite verifyTempToken_decode, Hdec. cbn [js_gt]. f_equal.
    repeat case_bool_decide; (done || lia). }
  split; [done|]. split; intros ->; rewrite Hver.
  - by rewrite bool_decide_false by lia.
  - by rewrite bool_decide_true by lia.
Qed.

Lemma verify_expiry_boundary_witness :
  valid_triple (js "FILE123") (js "203.0.113.7") 1699999999999
  /\ valid_triple (js "FILE123") (js "203.0.113.7") 1700000000001
  /\ (exists token,
        generateTempToken (js "FILE123") (js "203.0.113.7") (Num 1699999999999)
        = Normal token
        /\ verifyTempToken token (js "198.51.100.9") 1700000000000 = Normal None)
  /\ (exists token,
        generateTempToken (js "FILE123") (js "203.0.113.7") (Num 1700000000001)
        = Normal token
        /\ verifyTempToken token (js "198.51.100.9") 1700000000000
           = Normal (Some (TokenData (Str (js "FILE123")) (Num 1700000000001)))).
Proof.
  assert (H1 : valid_triple (js "FILE123") (js "203.0.113.7") 1699999999999).
  { repeat split; try reflexivity; vm_compute; discriminate. }
  assert (H2 : valid_triple (js "FILE123") (js "203.0.113.7") 1700000000001).
  { repeat split; try reflexivity; vm_compute; discriminate. }
  split; [exact H1|]. split; [exact H2|]. split.
  - destruct (verify_expiry_boundary _ _ (js "198.51.100.9") 1700000000000 _ H1)
      as (token & Hgen & _ & Hlo & _).
    exists token. split; [exact Hgen|]. apply Hlo. reflexivity.
  - destruct (verify_expiry_boundary _ _ (js "198.51.100.9") 1700000000000 _ H2)
      as (token & Hgen & _ & _ & Hhi).
    exists token. split; [exact Hgen|]. apply Hhi. reflexivity.
Defined.

(** C9: the verifier ignores the caller's identity: two callers presenting
    the same token at the same instant get the same result. *)
Theorem verify_ignores_identity token ip1 ip2 now :
  verifyTempToken token ip1 now = verifyTempToken token ip2 now.
Proof. by rewrite !verifyTempToken_decode. Qed.

Lemma element_take (fields : list jsstring) i :
  (i < 3)%nat -> element (take 3 fields) i = element fields i.
Proof. intros Hi. unfold element. by rewrite lookup_take_lt. Qed.

(** C1, as the code has it: a token whose base64 decoding fails is
    rejected with [null]; no token whatsoever makes [verifyTempToken]
    throw; and a decoded content is not rejected for having more than
    three fields, the fields after the third being ignored. *)
Theorem verify_never_throws token userIP now :
  (exists result, verifyTempToken token userIP now = Normal result)
  /\ ((exists e, token_payload token = Throw e) ->
      verifyTempToken token userIP now = Normal None)
  /\ (forall token' data data',
        token_payload token = Normal data ->
        token_payload token' = Normal data' ->
        take 3 (split 58 data) = take 3 (split 58 data') ->
        verifyTempToken token userIP now = verifyTempToken token' userIP now).
Proof.
  rewrite verifyTempToken_decode. unfold decodeTempToken. split_and!.
  - destruct (token_payload token) as [data|e]; cbn; eauto.
  - intros [e ->]. done.
  - intros token' data data' Hdata Hdata' Hfields.
    rewrite verifyTempToken_decode. unfold decodeTempToken.
    rewrite Hdata, Hdata'. cbn [mbind completion_bind mret completion_ret].
    rewrite <- (element_take (split 58 data) 0), <- (element_take (split 58 data) 2),
      <- (element_take (split 58 data') 0), <- (element_take (split 58 data') 2)
      by lia.
    by rewrite Hfields.
Qed.

Lemma verify_never_throws_witness :
  (exists e, token_payload (js "not*base64") = Throw e)
  /\ verifyTempToken (js "not*base64") (js "203.0.113.7") 1700000000000
     = Normal None
  /\ token_payload (js "YTpiOjk5OTk5OTk5OTk5OTk6ZXh0cmE")
     = Normal (js "a:b:9999999999999:extra")
  /\ token_payload (js "YTpiOjk5OTk5OTk5OTk5OTk") = Normal (js "a:b:9999999999999")
  /\ verifyTempToken (js "YTpiOjk5OTk5OTk5OTk5OTk6ZXh0cmE") (js "203.0.113.7")
                     1700000000000
     = verifyTempToken (js "YTpiOjk5OTk5OTk5OTk5OTk") (js "203.0.113.7")
                       1700000000000.
Proof.
  assert (H : exists e, token_payload (js "not*base64") = Throw e).
  { exists InvalidCharacterError. vm_compute. reflexivity. }
  assert (H4 : token_payload (js "YTpiOjk5OTk5OTk5OTk5OTk6ZXh0cmE")
               = Normal (js "a:b:9999999999999:extra"))
    by (vm_compute; reflexivity).
  assert (H3 : token_payload (js "YTpiOjk5OTk5OTk5OTk5OTk")
               = Normal (js "a:b:9999999999999"))
    by (vm_compute; reflexivity).
  split; [exact H|].
  split;
    [exact (proj1 (proj2 (verify_never_throws _ (js "203.0.113.7") 1700000000000))
              H)|].
  split; [exact H4|]. split; [exact H3|].
  apply (proj2 (proj2 (verify_never_throws _ (js "203.0.113.7") 1700000000000))
           _ _ _ H4 H3).
  vm_compute. reflexivity.
Defined.

(** C1 fails as stated: tokens that the specification calls malformed are
    accepted.  ["YQ"] carries the single field ["a"]; the second token
    carries the four fields ["a:b:9999999999999:extra"]; the third carries
    ["a:b:soon"], whose third field is no integer. *)
Lemma malformed_tokens_accepted :
  malformed (js "YQ")
  /\ verifyTempToken (js "YQ") (js "203.0.113.7") 1700000000000
     = Normal (Some (TokenData (Str (js "a")) NaN))
  /\ malformed (js "YTpiOjk5OTk5OTk5OTk5OTk6ZXh0cmE")
  /\ verifyTempToken (js "YTpiOjk5OTk5OTk5OTk5OTk6ZXh0cmE") (js "203.0.113.7")
                     1700000000000
     = Normal (Some (TokenData (Str (js "a")) (Num 9999999999999)))
  /\ malformed (js "YTpiOnNvb24")
  /\ verifyTempToken (js "YTpiOnNvb24") (js "203.0.113.7") 1700000000000
     = Normal (Some (TokenData (Str (js "a")) NaN)).
Proof. vm_compute. repeat split. Qed.

(* ===================================================================== *)
(** * The route handlers                                                  *)
(* ===================================================================== *)

(** The scrutinee that blocks the evaluation of [t]. *)
Ltac head_scrutinee t :=
  lazymatch t with
  | match ?x with _ => _ end => head_scrutinee x
  | ?f ?x =>
      lazymatch f with
      | context [match _ with _ => _ end] => head_scrutinee f
      | _ => t
      end
  | _ => t
  end.

(** Exposes the plumbing of a handler run in [H]. *)
Tactic Notation "unfold_io" hyp(H) :=
  unfold run, mbind, mret, io_bind, io_ret, lift, fetch, perform, try_catch_io in H;
  cbn beta iota zeta in H.

(** Splits on the outcome of the next call that [H] is waiting for. *)
Tactic Notation "step_io" hyp(H) :=
  lazymatch type of H with
  | ?lhs = (_, _) =>
      let x := head_scrutinee lhs in
      let E := fresh "E" in
      destruct x eqn:E; simplify_eq; try (cbn beta iota zeta in H)
  end.

Lemma truthy_Some a : truthy a = true -> exists s, a = Some s /\ s <> [].
Proof. destruct a as [[|c s]|]; try done. intros _. by exists (c :: s). Qed.

Lemma toISOString_Normal date iso :
  toISOString date = Normal iso -> exists t, date = Num t /\ iso = iso_string t.
Proof. destruct date as [|t]; [done|]. intros [= <-]. eauto. Qed.

Lemma time_clip_Num t t' : time_clip t = Num t' -> t' = t /\ time_value t.
Proof. unfold time_clip. case_bool_decide; [|done]. by intros [= <-]. Qed.

(** Every step that a successful issuance went through. *)
Lemma get_file_url_success w req video_url direct_url expires size status tr :
  run (get_file_url w req)
  = (Normal (JsonResponse (JVideo video_url direct_url expires size) status), tr) ->
  exists file_id movie_slug botToken movie fileResponse fileData result tempToken,
    let userIP := caller_ip (issue_headers req) in
    let getFile := js "https://api.telegram.org/bot" ++ botToken
                     ++ js "/getFile?file_id=" ++ file_id in
    let expiresAt := (date_now w + 3600000)%Z in
    let row :=
      {| event_type := js "video_access_request";
         page_url := js "/watch/" ++ movie_slug;
         row_movie_id := movie_id movie;
         user_ip := userIP;
         user_agent := headers_get (issue_headers req) (js "User-Agent") |} in
    issue_json req = Normal (Some (file_id, movie_slug))
    /\ TELEGRAM_BOT_TOKEN w = Some botToken /\ botToken <> []
    /\ db_first w movie_slug = Normal (Some movie)
    /\ net_fetch w getFile = Normal fileResponse
    /\ resp_json fileResponse = Normal fileData
    /\ tg_ok fileData = true
    /\ tg_result fileData = Some result
    /\ time_value expiresAt
    /\ generateTempToken file_id userIP (Num expiresAt) = Normal tempToken
    /\ db_run w row = Normal ()
    /\ video_url = js "/api/telegram/stream/" ++ tempToken
    /\ direct_url = js "https://api.telegram.org/file/bot" ++ botToken ++ js "/"
                      ++ to_string (from_option Str Undefined (file_path result))
    /\ expires = iso_string expiresAt
    /\ size = file_size result
    /\ status = 200%Z
    /\ tr = [EvSelectMovie movie_slug; EvFetch getFile; EvInsertAnalytics row].
Proof.
  unfold get_file_url. intros H. unfold_io H.
  repeat step_io H.
  apply negb_false_iff, truthy_Some in E0 as (botToken & HbotToken & Hne).
  apply negb_false_iff in E4.
  apply toISOString_Normal in E8 as (t' & Hclip & ->).
  apply time_clip_Num in Hclip as Hclip'. destruct Hclip' as [-> Htime].
  rewrite Hclip in *. rewrite HbotToken in *. cbn [default] in *.
  destruct a2.
  by eexists _, _, botToken, _, _, _, _, _.
Qed.

(** Exposes the plumbing of a handler run in the goal. *)
Ltac unfold_io_goal :=
  unfold run, mbind, mret, io_bind, io_ret, lift, fetch, perform, try_catch_io;
  cbn beta iota zeta.

(** An issuance whose analytics INSERT throws answers 500, whatever else
    succeeded. *)
Lemma get_file_url_analytics_throw w req file_id movie_slug botToken movie
    fileResponse fileData result tempToken e :
  let userIP := caller_ip (issue_headers req) in
  let getFile := js "https://api.telegram.org/bot" ++ botToken
                   ++ js "/getFile?file_id=" ++ file_id in
  let row :=
    {| event_type := js "video_access_request";
       page_url := js "/watch/" ++ movie_slug;
       row_movie_id := movie_id movie;
       user_ip := userIP;
       user_agent := headers_get (issue_headers req) (js "User-Agent") |} in
  issue_json req = Normal (Some (file_id, movie_slug)) ->
  TELEGRAM_BOT_TOKEN w = Some botToken -> botToken <> [] ->
  db_first w movie_slug = Normal (Some movie) ->
  net_fetch w getFile = Normal fileResponse ->
  resp_json fileResponse = Normal fileData ->
  tg_ok fileData = true ->
  tg_result fileData = Some result ->
  generateTempToken file_id userIP (time_clip (date_now w + 3600000))
  = Normal tempToken ->
  db_run w row = Throw e ->
  run (get_file_url w req)
  = (Normal (JsonResponse (JError (js "Failed to get video URL")) 500),
     [EvSelectMovie movie_slug; EvFetch getFile; EvInsertAnalytics row]).
Proof.
  intros userIP getFile row Hjson Hbot Hne Hmovie Hfetch Hreply Hok Hres Hgen Hrun.
  unfold get_file_url. unfold_io_goal.
  assert (Htruthy : truthy (Some botToken) = true) by (by destruct botToken).
  rewrite Hjson, Hbot, Htruthy. cbn [negb default from_option id]. rewrite Hmovie. fold getFile.
  rewrite Hfetch, Hreply, Hok.
  cbn [negb]. rewrite Hres. fold userIP. rewrite Hgen. fold row. by rewrite Hrun.
Qed.

(** C3, on the code: with the movie found and the file resolved, an
    analytics INSERT that throws turns the issuance into the 500 answer
    [Failed to get video URL]; the same request succeeds when the INSERT
    does. *)
Theorem analytics_failure_fails_issuance :
  run (get_file_url (example_world (Throw D1Error) ∅)
                    (example_issue (js "203.0.113.7")))
  = (Normal (JsonResponse (JError (js "Failed to get video URL")) 500),
     [EvSelectMovie (js "movie-x"); EvFetch example_getFile_url;
      EvInsertAnalytics example_row])
  /\ run (get_file_url (example_world (Normal ()) ∅)
                       (example_issue (js "203.0.113.7")))
     = (Normal example_answer,
        [EvSelectMovie (js "movie-x"); EvFetch example_getFile_url;
         EvInsertAnalytics example_row]).
Proof. split; vm_compute; reflexivity. Qed.

(** C10: the [direct_url] of every successful issuance is
    [https://api.telegram.org/file/bot], the bot credential, [/] and the
    file path that the bot API reported: the credential is in the answer. *)
Theorem issue_exposes_bot_credential w req video_url direct_url expires size
    status tr :
  run (get_file_url w req)
  = (Normal (JsonResponse (JVideo video_url direct_url expires size) status), tr) ->
  exists botToken file_id movie_slug fileResponse fileData result,
    TELEGRAM_BOT_TOKEN w = Some botToken /\ botToken <> []
    /\ issue_json req = Normal (Some (file_id, movie_slug))
    /\ net_fetch w (js "https://api.telegram.org/bot" ++ botToken
                      ++ js "/getFile?file_id=" ++ file_id) = Normal fileResponse
    /\ resp_json fileResponse = Normal fileData
    /\ tg_result fileData = Some result
    /\ direct_url
       = js "https://api.telegram.org/file/bot" ++ botToken ++ js "/"
           ++ to_string (from_option Str Undefined (file_path result)).
Proof.
  intros Hrun. apply get_file_url_success in Hrun
    as (file_id & movie_slug & botToken & movie & fileResponse & fileData
        & result & tempToken & Hrun).
  cbv zeta in Hrun.
  destruct Hrun as (?&?&?&?&?&?&?&?&?&?&?&?&?&?&?&?&?).
  by exists botToken, file_id, movie_slug, fileResponse, fileData, result.
Qed.

Lemma issue_exposes_bot_credential_witness :
  exists direct_url,
    (exists video_url expires size status tr,
       run (get_file_url (example_world (Normal ()) ∅)
                         (example_issue (js "203.0.113.7")))
       = (Normal (JsonResponse (JVideo video_url direct_url expires size) status),
          tr))
    /\ exists filePath,
         direct_url = js "https://api.telegram.org/file/bot" ++ example_bot_token
                        ++ js "/" ++ filePath.
Proof.
  assert (Hrun : exists video_url direct_url expires size status tr,
             run (get_file_url (example_world (Normal ()) ∅)
                               (example_issue (js "203.0.113.7")))
             = (Normal (JsonResponse (JVideo video_url direct_url expires size)
                                     status), tr)).
  { do 6 eexists. vm_compute. reflexivity. }
  destruct Hrun as (video_url & direct_url & expires & size & status & tr & Hrun).
  exists direct_url. split; [by eauto 6|].
  destruct (issue_exposes_bot_credential _ _ _ _ _ _ _ _ Hrun)
    as (botToken & file_id & movie_slug & fileResponse & fileData & result
        & Hbot & _ & _ & _ & _ & _ & ->).
  injection Hbot as <-. eauto.
Defined.

(** A successful issuance at instant [T] mints a token whose payload ends
    with the decimal of [T + 3600000] and answers with the ISO form of
    that instant; when neither the file id nor the caller's identity holds
    a colon, the token decodes to the file id, the identity and
    [T + 3600000]. *)
Lemma issued_token_expiry w req video_url direct_url expires size status tr :
  run (get_file_url w req)
  = (Normal (JsonResponse (JVideo video_url direct_url expires size) status), tr) ->
  exists file_id movie_slug token,
    let userIP := caller_ip (issue_headers req) in
    let expiresAt := (date_now w + 3600000)%Z in
    issue_json req = Normal (Some (file_id, movie_slug))
    /\ video_url = js "/api/telegram/stream/" ++ token
    /\ token_payload token
       = Normal (file_id ++ js ":" ++ userIP ++ js ":"
                   ++ number_to_string (Num expiresAt))
    /\ expires = iso_string expiresAt
    /\ (colon_free file_id -> colon_free userIP ->
        decodeTempToken token = Normal (Str file_id, Str userIP, Num expiresAt)).
Proof.
  intros Hrun. apply get_file_url_success in Hrun
    as (file_id & movie_slug & botToken & movie & fileResponse & fileData
        & result & tempToken & Hrun).
  cbv zeta in Hrun.
  destruct Hrun as (?&?&?&?&?&?&?&?&?&Hgen&?&?&?&?&?&?&?).
  exists file_id, movie_slug, tempToken. cbv zeta.
  repeat split; try done.
  - by apply token_payload_generate.
  - intros Hf Hip. by apply decodeTempToken_generate.
Qed.

Lemma issued_token_expiry_witness :
  exists video_url expires,
    (exists direct_url size status tr,
       run (get_file_url (example_world (Normal ()) ∅)
                         (example_issue (js "203.0.113.7")))
       = (Normal (JsonResponse (JVideo video_url direct_url expires size) status),
          tr))
    /\ exists token,
         video_url = js "/api/telegram/stream/" ++ token
         /\ decodeTempToken token
            = Normal (Str (js "FILE123"), Str (js "203.0.113.7"),
                      Num 1700003600000)
         /\ expires = iso_string 1700003600000.
Proof.
  assert (Hrun : exists video_url direct_url expires size status tr,
             run (get_file_url (example_world (Normal ()) ∅)
                               (example_issue (js "203.0.113.7")))
             = (Normal (JsonResponse (JVideo video_url direct_url expires size)
                                     status), tr)).
  { do 6 eexists. vm_compute. reflexivity. }
  destruct Hrun as (video_url & direct_url & expires & size & status & tr & Hrun).
  exists video_url, expires. split; [by eauto 6|].
  destruct (issued_token_expiry _ _ _ _ _ _ _ _ Hrun)
    as (file_id & movie_slug & token & Hjson & Hurl & _ & Hiso & Hdec).
  injection Hjson as <- <-.
  exists token. split; [exact Hurl|]. split; [|exact Hiso].
  apply Hdec; reflexivity.
Defined.

(** C5, on the code: the issuance for the IPv6 caller 2001:db8::1 at
    instant 1700000000000 succeeds, but its token does not decode to the
    expiry 1700003600000: the split at every colon yields the identity
    [2001] and no expiry at all, so the token still verifies long after
    it should have expired. *)
Theorem ipv6_issuance_misdecodes :
  fst (run (get_file_url (example_world (Normal ()) ∅)
                         (example_issue (js "2001:db8::1"))))
  = Normal (JsonResponse
              (JVideo (js "/api/telegram/stream/" ++ example_token_ipv6)
                      (js "https://api.telegram.org/file/bot123456:SECRET/videos/file_7.mp4")
                      (iso_string 1700003600000)
                      (Some 1048576%Z))
              200)
  /\ decodeTempToken example_token_ipv6
     = Normal (Str (js "FILE123"), Str (js "2001"), NaN)
  /\ decodeTempToken example_token_ipv6
     <> Normal (Str (js "FILE123"), Str (js "2001:db8::1"), Num 1700003600000)
  /\ verifyTempToken example_token_ipv6 (js "2001:db8::1") 1800000000000
     = Normal (Some (TokenData (Str (js "FILE123")) NaN)).
Proof. vm_compute. repeat split. discriminate. Qed.

(** C7: when verification fails, the stream handler answers 401
    [Invalid or expired token] and has performed no fetch nor any other
    effect. *)
Theorem stream_rejects_unverified w req :
  verifyTempToken (param_token req) (caller_ip (stream_headers req)) (date_now w)
  = Normal None ->
  run (stream w req)
  = (Normal (JsonResponse (JError (js "Invalid or expired token")) 401), []).
Proof.
  intros Hverify. unfold stream. unfold_io_goal. by rewrite Hverify.
Qed.

Lemma stream_rejects_unverified_witness :
  verifyTempToken example_token (js "203.0.113.7") 1700003600001 = Normal None
  /\ run (stream example_world_later
                 (example_stream example_token (js "203.0.113.7")))
     = (Normal (JsonResponse (JError (js "Invalid or expired token")) 401), []).
Proof.
  assert (H : verifyTempToken example_token (js "203.0.113.7") 1700003600001
              = Normal None) by (vm_compute; reflexivity).
  split; [exact H|].
  exact (stream_rejects_unverified example_world_later
           (example_stream example_token (js "203.0.113.7")) H).
Defined.

(** Every step that a successful relay went through. *)
Lemma stream_success w req body status headers tr :
  run (stream w req) = (Normal (StreamResponse body status headers), tr) ->
  exists tokenData botToken fileResponse fileData result videoResponse,
    let getFile := js "https://api.telegram.org/bot" ++ botToken
                     ++ js "/getFile?file_id=" ++ to_string (file_id tokenData) in
    let videoUrl := js "https://api.telegram.org/file/bot" ++ botToken ++ js "/"
                      ++ to_string (from_option Str Undefined (file_path result)) in
    verifyTempToken (param_token req) (caller_ip (stream_headers req)) (date_now w)
    = Normal (Some tokenData)
    /\ TELEGRAM_BOT_TOKEN w = Some botToken /\ botToken <> []
    /\ net_fetch w getFile = Normal fileResponse
    /\ resp_json fileResponse = Normal fileData
    /\ tg_ok fileData = true
    /\ tg_result fileData = Some result
    /\ net_fetch w videoUrl = Normal videoResponse
    /\ resp_ok videoResponse = true
    /\ body = resp_body videoResponse
    /\ status = resp_status videoResponse
    /\ headers
       = headers_set
           (headers_set
              (headers_set
                 (headers_set
                    (headers_set ∅ (js "Content-Type")
                       (or_lit (headers_get (resp_headers videoResponse)
                                            (js "Content-Type"))
                               (js "video/mp4")))
                    (js "Content-Length")
                    (or_lit (headers_get (resp_headers videoResponse)
                                         (js "Content-Length"))
                            (js "0")))
                 (js "Accept-Ranges") (js "bytes"))
              (js "Cache-Control") (js "no-cache, no-store, must-revalidate"))
           (js "X-Content-Type-Options") (js "nosniff")
    /\ tr = [EvFetch getFile; EvFetch videoUrl].
Proof.
  unfold stream. intros H. unfold_io H.
  repeat step_io H.
  apply negb_false_iff, truthy_Some in E0 as (botToken & HbotToken & Hne).
  apply negb_false_iff in E3, E6.
  rewrite HbotToken in *. cbn [default from_option id] in *.
  by eexists _, botToken, _, _, _, _.
Qed.

(** Two literal header names differ. *)
Ltac header_neq := apply (bool_decide_unpack _); vm_compute; exact I.

(** The headers that the stream handler puts on the Response it
    returns. *)
Lemma stream_handler_headers w req body status headers tr :
  run (stream w req) = (Normal (StreamResponse body status headers), tr) ->
  exists url upstream,
    net_fetch w url = Normal upstream /\ resp_ok upstream = true
    /\ body = resp_body upstream /\ status = resp_status upstream
    /\ headers
       = headers_set
           (headers_set
              (headers_set
                 (headers_set
                    (headers_set ∅ (js "Content-Type")
                       (or_lit (headers_get (resp_headers upstream)
                                            (js "Content-Type"))
                               (js "video/mp4")))
                    (js "Content-Length")
                    (or_lit (headers_get (resp_headers upstream)
                                         (js "Content-Length"))
                            (js "0")))
                 (js "Accept-Ranges") (js "bytes"))
              (js "Cache-Control") (js "no-cache, no-store, must-revalidate"))
           (js "X-Content-Type-Options") (js "nosniff").
Proof.
  intros Hrun. apply stream_success in Hrun
    as (tokenData & botToken & fileResponse & fileData & result & videoResponse
        & Hrun).
  cbv zeta in Hrun.
  destruct Hrun as (_&_&_&_&_&_&_&Hfetch&Hok&->&->&->&_).
  by eexists _, videoResponse.
Qed.

(** The app relays a stream exactly when the handler does; the
    middleware adds its header. *)
Lemma api_stream_relay w req body status headers tr :
  run (api_stream w req) = (Normal (StreamResponse body status headers), tr) ->
  exists headers',
    run (stream w req) = (Normal (StreamResponse body status headers'), tr)
    /\ headers = headers_set headers' (js "Access-Control-Allow-Origin") (js "*").
Proof.
  unfold api_stream, cors. unfold run, mbind, mret, io_bind, io_ret.
  destruct (stream w req []) as [[[answer st|b st h]|e] tr']; intros [= <- <- <- <-];
    eauto.
Qed.

(** C8, as the code has it: a successful relay carries exactly six
    headers.  The handler sets five: the upstream [Content-Type], or
    [video/mp4] when the upstream has none; the upstream [Content-Length],
    or [0] when the upstream has none; [Accept-Ranges: bytes];
    [Cache-Control: no-cache, no-store, must-revalidate];
    [X-Content-Type-Options: nosniff].  The cors middleware of [/api/*]
    adds [Access-Control-Allow-Origin: *]. *)
Theorem stream_relay_headers w req body status headers tr :
  run (api_stream w req) = (Normal (StreamResponse body status headers), tr) ->
  exists url upstream,
    net_fetch w url = Normal upstream /\ resp_ok upstream = true
    /\ body = resp_body upstream /\ status = resp_status upstream
    /\ headers_get headers (js "Content-Type")
       = Some (or_lit (headers_get (resp_headers upstream) (js "Content-Type"))
                      (js "video/mp4"))
    /\ headers_get headers (js "Content-Length")
       = Some (or_lit (headers_get (resp_headers upstream) (js "Content-Length"))
                      (js "0"))
    /\ headers_get headers (js "Accept-Ranges") = Some (js "bytes")
    /\ headers_get headers (js "Cache-Control")
       = Some (js "no-cache, no-store, must-revalidate")
    /\ headers_get headers (js "X-Content-Type-Options") = Some (js "nosniff")
    /\ headers_get headers (js "Access-Control-Allow-Origin") = Some (js "*")
    /\ dom headers
       = {[ lower (js "Content-Type"); lower (js "Content-Length");
            lower (js "Accept-Ranges"); lower (js "Cache-Control");
            lower (js "X-Content-Type-Options");
            lower (js "Access-Control-Allow-Origin") ]}
    /\ size headers = 6%nat.
Proof.
  intros Hrun. apply api_stream_relay in Hrun as (headers' & Hrun & ->).
  apply stream_handler_headers in Hrun
    as (url & upstream & Hfetch & Hok & -> & -> & ->).
  exists url, upstream. split; [exact Hfetch|]. split; [exact Hok|].
  split; [done|]. split; [done|].
  unfold headers_get, headers_set.
  assert (Hdom : forall ct cl : jsstring,
             dom (<[lower (js "Access-Control-Allow-Origin") := js "*"]>
                    (<[lower (js "X-Content-Type-Options") := js "nosniff"]>
                       (<[lower (js "Cache-Control") :=
                            js "no-cache, no-store, must-revalidate"]>
                          (<[lower (js "Accept-Ranges") := js "bytes"]>
                             (<[lower (js "Content-Length") := cl]>
                                (<[lower (js "Content-Type") := ct]>
                                   (∅ : Headers)))))))
             = {[ lower (js "Content-Type"); lower (js "Content-Length");
                  lower (js "Accept-Ranges"); lower (js "Cache-Control");
                  lower (js "X-Content-Type-Options");
                  lower (js "Access-Control-Allow-Origin") ]}).
  { intros ct cl. rewrite !dom_insert_L, dom_empty_L. set_solver. }
  split_and!;
    try (repeat (rewrite lookup_insert_ne by header_neq);
         by rewrite lookup_insert_eq).
  - apply Hdom.
  - rewrite <- size_dom, Hdom.
    rewrite !size_union, !size_singleton; [done|..];
      rewrite ?disjoint_union_l, !disjoint_singleton_l, ?not_elem_of_singleton;
      split_and?; header_neq.
Qed.

Lemma stream_relay_headers_witness :
  exists headers,
    (exists body status tr,
       run (api_stream (example_world (Normal ()) example_chunked)
                       (example_stream example_token (js "203.0.113.7")))
       = (Normal (StreamResponse body status headers), tr))
    /\ headers_get headers (js "Accept-Ranges") = Some (js "bytes")
    /\ headers_get headers (js "Cache-Control")
       = Some (js "no-cache, no-store, must-revalidate")
    /\ headers_get headers (js "X-Content-Type-Options") = Some (js "nosniff")
    /\ headers_get headers (js "Access-Control-Allow-Origin") = Some (js "*")
    /\ size headers = 6%nat.
Proof.
  assert (Hrun : exists body status headers tr,
             run (api_stream (example_world (Normal ()) example_chunked)
                             (example_stream example_token (js "203.0.113.7")))
             = (Normal (StreamResponse body status headers), tr)).
  { do 4 eexists. vm_compute. reflexivity. }
  destruct Hrun as (body & status & headers & tr & Hrun).
  exists headers. split; [by eauto|].
  destruct (stream_relay_headers _ _ _ _ _ _ Hrun)
    as (url & upstream & _ & _ & _ & _ & _ & _ & Har & Hcc & Hxc & Hao & _ & Hsz).
  auto.
Defined.

(** C8 fails as stated: when the file host announces no content length,
    the relay still carries [Content-Length: 0], and it carries the
    middleware's [Access-Control-Allow-Origin: *]; the listed headers
    include neither. *)
Lemma relay_invents_content_length :
  exists body headers tr,
    run (api_stream (example_world (Normal ()) example_chunked)
                    (example_stream example_token (js "203.0.113.7")))
    = (Normal (StreamResponse body 200 headers), tr)
    /\ headers_get example_chunked (js "Content-Length") = None
    /\ headers_get headers (js "Content-Length") = Some (js "0")
    /\ headers_get headers (js "Access-Control-Allow-Origin") = Some (js "*")
    /\ headers <> spec_relay_headers example_chunked.
Proof.
  eexists _, _, _. split; [vm_compute; reflexivity|].
  split; [vm_compute; reflexivity|]. split; [vm_compute; reflexivity|].
  split; [vm_compute; reflexivity|].
  intros Heq.
  apply (f_equal (fun h : Headers => headers_get h (js "Content-Length"))) in Heq.
  vm_compute in Heq. discriminate.
Qed.

(* ===================================================================== *)
(** * More on the token codec and the verifier                            *)
(* ===================================================================== *)

Lemma split_fields sep s :
  split sep s <> [] /\ Forall (fun f => Forall (fun c => c <> sep) f) (split sep s).
Proof.
  induction s as [|c s [IHne IH]]; cbn [split].
  - split; [done|]. by repeat constructor.
  - destruct (N.eqb_spec c sep) as [->|Hc].
    + split; [done|]. by constructor.
    + destruct (split sep s) as [|f fs]; [done|].
      split; [done|]. decompose_Forall_hyps. by repeat constructor.
Qed.

(** X1: acceptance is monotone in time and blind to the caller: a token
    accepted at [now] is accepted, with the same result, at every earlier
    instant and for every caller. *)
Theorem verify_accepts_earlier token ip ip' now now' d :
  verifyTempToken token ip now = Normal (Some d) ->
  (now' <= now)%Z ->
  verifyTempToken token ip' now' = Normal (Some d).
Proof.
  rewrite !verifyTempToken_decode.
  destruct (decodeTempToken token) as [[[fileId tokenIP] expires]|e]; [|done].
  destruct expires as [|z]; cbn [js_gt]; [done|].
  repeat case_bool_decide; try done; lia.
Qed.

Lemma verify_accepts_earlier_witness :
  verifyTempToken example_token (js "203.0.113.7") 1700003600000
  = Normal (Some (TokenData (Str (js "FILE123")) (Num 1700003600000)))
  /\ verifyTempToken example_token (js "198.51.100.9") 1700000000000
     = Normal (Some (TokenData (Str (js "FILE123")) (Num 1700003600000))).
Proof.
  assert (H : verifyTempToken example_token (js "203.0.113.7") 1700003600000
              = Normal (Some (TokenData (Str (js "FILE123")) (Num 1700003600000))))
    by (vm_compute; reflexivity).
  split; [exact H|].
  apply (verify_accepts_earlier _ _ (js "198.51.100.9") _ 1700000000000 _ H).
  lia.
Defined.

(** X2: a token whose payload has fewer than three fields, or a third
    field from which [parseInt] reads no number, never expires: every
    caller gets it accepted at every instant, with the first field as file
    id. *)
Theorem unparsable_expiry_never_expires token data :
  token_payload token = Normal data ->
  (length (split 58%N data) < 3)%nat
  \/ parseInt (element (split 58 data) 2) = NaN ->
  forall ip now,
    verifyTempToken token ip now
    = Normal (Some (TokenData (element (split 58 data) 0) NaN)).
Proof.
  intros Hdata Hnan ip now.
  assert (Hexp : parseInt (element (split 58 data) 2) = NaN).
  { destruct Hnan as [Hlen|]; [|done]. unfold element.
    rewrite lookup_ge_None_2 by lia. vm_compute. reflexivity. }
  rewrite verifyTempToken_decode. unfold decodeTempToken. rewrite Hdata.
  cbn [mbind completion_bind mret completion_ret]. by rewrite Hexp.
Qed.

Lemma unparsable_expiry_never_expires_witness :
  token_payload (js "RklMRTEyMw") = Normal (js "FILE123")
  /\ forall ip now,
       verifyTempToken (js "RklMRTEyMw") ip now
       = Normal (Some (TokenData (Str (js "FILE123")) NaN)).
Proof.
  assert (H : token_payload (js "RklMRTEyMw") = Normal (js "FILE123"))
    by (vm_compute; reflexivity).
  split; [exact H|]. intros ip now.
  apply (unparsable_expiry_never_expires _ _ H). left. vm_compute. lia.
Defined.

(** X3: the file id of an accepted token is always a string, never
    [undefined]: the payload up to its first colon, so it holds no colon. *)
Theorem verified_file_id_is_first_field token ip now d :
  verifyTempToken token ip now = Normal (Some d) ->
  exists data fileId rest,
    token_payload token = Normal data
    /\ split 58 data = fileId :: rest
    /\ file_id d = Str fileId
    /\ colon_free fileId
    /\ fileId `prefix_of` data.
Proof.
  rewrite verifyTempToken_decode. unfold decodeTempToken.
  destruct (token_payload token) as [data|e]; [|done].
  cbn [mbind completion_bind mret completion_ret].
  destruct (js_gt _ _); [done|]. intros [= <-].
  destruct (split_fields 58 data) as [Hne Hall].
  destruct (split 58 data) as [|fileId rest] eqn:Hsplit; [done|].
  exists data, fileId, rest. decompose_Forall_hyps.
  split_and!; try done.
  - by apply colon_free_Forall.
  - clear -Hsplit. revert fileId rest Hsplit.
    induction data as [|c data IH]; intros fileId rest; cbn [split].
    + intros [= <- <-]. done.
    + destruct (c =? 58).
      * intros [= <- <-]. apply prefix_nil.
      * destruct (split 58 data) as [|f fs]; [by intros [= <- <-]; apply prefix_cons, prefix_nil|].
        intros [= <- <-]. apply prefix_cons. by eapply IH.
Qed.

Lemma verified_file_id_is_first_field_witness :
  exists d,
    verifyTempToken example_token_ipv6 (js "2001:db8::1") 1700000000000
    = Normal (Some d)
    /\ exists fileId, file_id d = Str fileId /\ colon_free fileId.
Proof.
  assert (H : exists d,
             verifyTempToken example_token_ipv6 (js "2001:db8::1") 1700000000000
             = Normal (Some d)).
  { eexists. vm_compute. reflexivity. }
  destruct H as [d H]. exists d. split; [exact H|].
  destruct (verified_file_id_is_first_field _ _ _ _ H)
    as (data & fileId & rest & _ & _ & Hid & Hcf & _).
  eauto.
Defined.

Lemma replace_char_id c by_ (s : jsstring) :
  Forall (fun x => x <> c) s -> replace_char c by_ s = s.
Proof.
  unfold replace_char, replace_class.
  induction 1 as [|x s Hx _ IH]; [done|].
  rewrite bind_cons, IH. by rewrite (proj2 (N.eqb_neq _ _) Hx).
Qed.

Lemma base64_encode_length l : (length (base64_encode l) mod 4 = 0)%nat.
Proof.
  unfold base64_encode, b64_padding, repeat_char.
  rewrite length_app, length_fmap, length_replicate.
  induction l as [|a|a b|a b c r IH] using list_ind3;
    cbn [sextets_of_octets length]; lia.
Qed.

(** The verifier's result is a function of the payload alone. *)
Lemma verifyTempToken_payload token token' ip ip' now :
  token_payload token = token_payload token' ->
  verifyTempToken token ip now = verifyTempToken token' ip' now.
Proof.
  intros Heq. rewrite !verifyTempToken_decode. unfold decodeTempToken.
  by rewrite Heq.
Qed.

(** X4: the verifier also takes the unescaped form: [btoa] of a payload,
    with its ['+'], ['/'] and ['='] padding left in, carries that payload,
    so it gets the same verdict as the token [generateTempToken] makes. *)
Theorem verify_accepts_standard_base64 fileId userIP expiresAt token :
  generateTempToken fileId userIP expiresAt = Normal token ->
  let data := fileId ++ js ":" ++ userIP ++ js ":" ++ number_to_string expiresAt in
  btoa data = Normal (base64_encode data)
  /\ token_payload (base64_encode data) = Normal data
  /\ forall ip now,
       verifyTempToken (base64_encode data) ip now = verifyTempToken token ip now.
Proof.
  intros Hgen data.
  pose proof (token_payload_generate _ _ _ _ Hgen) as Hpay. fold data in Hpay.
  rewrite generateTempToken_eq in Hgen. cbv zeta in Hgen. fold data in Hgen.
  destruct (forallb (fun c => c <=? 255) data) eqn:Hlat; [|done].
  assert (Hstd : token_payload (base64_encode data) = Normal data).
  { unfold token_payload. rewrite base64_encode_length. cbn [repeat_char replicate].
    change ((4 - 0) mod 4)%nat with 0%nat. cbn [replicate]. rewrite app_nil_r.
    apply latin1_Forall in Hlat.
    assert (Hchars : Forall (fun c => c <> 45 /\ c <> 95) (base64_encode data)).
    { unfold base64_encode, b64_padding, repeat_char. apply Forall_app. split.
      - eapply Forall_impl; [by apply encoded_body_chars|]. by intros ? (?&?&?).
      - by apply Forall_replicate. }
    rewrite (replace_char_id 45) by (eapply Forall_impl; [exact Hchars|]; by intros ? []).
    rewrite (replace_char_id 95) by (eapply Forall_impl; [exact Hchars|]; by intros ? []).
    by apply atob_base64_encode. }
  split_and!; [by unfold btoa; rewrite Hlat|done|].
  intros ip now. apply verifyTempToken_payload. by rewrite Hstd, Hpay.
Qed.

Lemma verify_accepts_standard_base64_witness :
  generateTempToken (js "FILE?>") (js "203.0.113.7") (Num 1700003600000)
  = Normal (js "RklMRT8-OjIwMy4wLjExMy43OjE3MDAwMDM2MDAwMDA")
  /\ base64_encode (js "FILE?>:203.0.113.7:1700003600000")
     = js "RklMRT8+OjIwMy4wLjExMy43OjE3MDAwMDM2MDAwMDA="
  /\ forall ip now,
       verifyTempToken (js "RklMRT8+OjIwMy4wLjExMy43OjE3MDAwMDM2MDAwMDA=") ip now
       = verifyTempToken (js "RklMRT8-OjIwMy4wLjExMy43OjE3MDAwMDM2MDAwMDA") ip now.
Proof.
  assert (H : generateTempToken (js "FILE?>") (js "203.0.113.7") (Num 1700003600000)
              = Normal (js "RklMRT8-OjIwMy4wLjExMy43OjE3MDAwMDM2MDAwMDA"))
    by (vm_compute; reflexivity).
  split; [exact H|]. split; [vm_compute; reflexivity|].
  exact (proj2 (proj2 (verify_accepts_standard_base64 _ _ _ _ H))).
Defined.

(** X5: [generateTempToken] returns a token exactly when the file id and
    the identity are made of code units up to 0xFF; otherwise [btoa]
    throws an InvalidCharacterError. *)
Theorem generateTempToken_domain fileId userIP expiresAt :
  ((exists token, generateTempToken fileId userIP expiresAt = Normal token)
   <-> latin1 fileId /\ latin1 userIP)
  /\ (generateTempToken fileId userIP expiresAt = Throw InvalidCharacterError
      <-> ~ (latin1 fileId /\ latin1 userIP)).
Proof.
  rewrite generateTempToken_eq. cbv zeta.
  assert (Hiff : forallb (fun c => c <=? 255)
                   (fileId ++ js ":" ++ userIP ++ js ":"
                      ++ number_to_string expiresAt) = true
                 <-> latin1 fileId /\ latin1 userIP).
  { change (latin1 (fileId ++ js ":" ++ userIP ++ js ":"
                      ++ number_to_string expiresAt)
            <-> latin1 fileId /\ latin1 userIP).
    rewrite !latin1_app. pose proof (number_to_string_latin1 expiresAt).
    assert (latin1 (js ":")) by done. tauto. }
  destruct (forallb _ _); (split; split).
  - intros _. by apply Hiff.
  - eauto.
  - done.
  - intros Hn. destruct Hn. by apply Hiff.
  - by intros [? ?].
  - intros Hl. by apply Hiff in Hl.
  - intros _ Hl. by apply Hiff in Hl.
  - done.
Qed.

Lemma token_char_of_sextet i :
  i < 64 -> is_token_char (spec_remap (b64_char i)) = true.
Proof.
  intros Hi. unfold b64_char.
  destruct (N.ltb_spec i 26); [|destruct (N.ltb_spec i 52);
    [|destruct (N.ltb_spec i 62); [|destruct (N.eqb_spec i 62)]]];
    unfold spec_remap;
    repeat match goal with
      | |- context [N.eqb ?a ?b] => destruct (N.eqb_spec a b); try lia
      end;
    unfold is_token_char; char_cases.
Qed.

(** X6: a token is made of letters, digits, ['-'] and ['_'] only, and
    its length is the payload's length times four thirds, rounded up. *)
Theorem token_alphabet_and_length fileId userIP expiresAt token :
  generateTempToken fileId userIP expiresAt = Normal token ->
  forallb is_token_char token = true
  /\ length token
     = ((4 * length (fileId ++ js ":" ++ userIP ++ js ":"
                       ++ number_to_string expiresAt) + 2) / 3)%nat.
Proof.
  rewrite generateTempToken_eq. cbv zeta. set (data := fileId ++ _).
  destruct (forallb (fun c => c <=? 255) data) eqn:Hlat; [|done]. intros [= <-].
  apply latin1_Forall in Hlat. split.
  - apply forallb_forall. intros c Hin. apply list_elem_of_In in Hin.
    apply list_elem_of_fmap in Hin as (c' & -> & Hin).
    apply list_elem_of_fmap in Hin as (i & -> & Hin).
    pose proof (sextets_bound data Hlat) as Hsx. rewrite Forall_forall in Hsx.
    apply Hsx in Hin. by apply token_char_of_sextet.
  - rewrite !length_fmap. clear.
    induction data as [|a|a b|a b c r IH] using list_ind3;
      cbn [sextets_of_octets length]; lia.
Qed.

Lemma token_alphabet_and_length_witness :
  generateTempToken (js "FILE?>") (js "203.0.113.7") (Num 1700003600000)
  = Normal (js "RklMRT8-OjIwMy4wLjExMy43OjE3MDAwMDM2MDAwMDA")
  /\ forallb is_token_char (js "RklMRT8-OjIwMy4wLjExMy43OjE3MDAwMDM2MDAwMDA") = true
  /\ length (js "RklMRT8-OjIwMy4wLjExMy43OjE3MDAwMDM2MDAwMDA") = 43%nat.
Proof.
  assert (H : generateTempToken (js "FILE?>") (js "203.0.113.7") (Num 1700003600000)
              = Normal (js "RklMRT8-OjIwMy4wLjExMy43OjE3MDAwMDM2MDAwMDA"))
    by (vm_compute; reflexivity).
  split; [exact H|].
  destruct (token_alphabet_and_length _ _ _ _ H) as [Halpha Hlen].
  split; [exact Halpha|]. rewrite Hlen. vm_compute. reflexivity.
Defined.

(** X7: tokens are unambiguous: two calls of [generateTempToken] that
    return the same token were given the same colon-joined payload, and
    the same file id, identity and expiry when these hold no colon. *)
Theorem generateTempToken_injective f1 ip1 e1 f2 ip2 e2 token :
  generateTempToken f1 ip1 e1 = Normal token ->
  generateTempToken f2 ip2 e2 = Normal token ->
  f1 ++ js ":" ++ ip1 ++ js ":" ++ number_to_string e1
  = f2 ++ js ":" ++ ip2 ++ js ":" ++ number_to_string e2
  /\ (colon_free f1 -> colon_free ip1 -> colon_free f2 -> colon_free ip2 ->
      forall z1 z2, e1 = Num z1 -> e2 = Num z2 ->
      f1 = f2 /\ ip1 = ip2 /\ z1 = z2).
Proof.
  intros H1 H2. split.
  - apply token_payload_generate in H1, H2. congruence.
  - intros Hf1 Hip1 Hf2 Hip2 z1 z2 -> ->.
    pose proof (decodeTempToken_generate _ _ _ _ Hf1 Hip1 H1) as D1.
    pose proof (decodeTempToken_generate _ _ _ _ Hf2 Hip2 H2) as D2.
    rewrite D1 in D2. by injection D2 as -> -> ->.
Qed.

Lemma generateTempToken_injective_witness :
  generateTempToken (js "FILE123") (js "203.0.113.7") (Num 1700003600000)
  = Normal example_token
  /\ forall f ip z,
       colon_free f -> colon_free ip ->
       generateTempToken f ip (Num z) = Normal example_token ->
       f = js "FILE123" /\ ip = js "203.0.113.7" /\ z = 1700003600000%Z.
Proof.
  assert (H : generateTempToken (js "FILE123") (js "203.0.113.7") (Num 1700003600000)
              = Normal example_token) by (vm_compute; reflexivity).
  split; [exact H|]. intros f ip z Hf Hip Hgen.
  destruct (generateTempToken_injective _ _ _ _ _ _ _ Hgen H) as [_ Hinj].
  apply (Hinj Hf Hip eq_refl eq_refl z 1700003600000%Z); reflexivity.
Defined.

(* ===================================================================== *)
(** * More on the issuance handler                                        *)
(* ===================================================================== *)

(** X8: the only exceptions that leave the issuance handler come from
    its first statement, which stands before the [try]: a body that does
    not parse, and a body that parses to [null] (a TypeError from the
    destructuring); both leave before any effect.  For a body with the two
    fields the handler never throws: it answers 200 with the video URLs or
    one of four errors (500 not configured, 404 movie not found, 400
    invalid file id, 500 for anything thrown on the way). *)
Theorem get_file_url_answers w req :
  (forall e, issue_json req = Throw e -> run (get_file_url w req) = (Throw e, []))
  /\ (issue_json req = Normal None ->
      run (get_file_url w req) = (Throw TypeError, []))
  /\ (forall fields, issue_json req = Normal (Some fields) ->
      exists answer status tr,
        run (get_file_url w req) = (Normal (JsonResponse answer status), tr)
        /\ ((exists video_url direct_url expires size,
               answer = JVideo video_url direct_url expires size /\ status = 200%Z)
            \/ (answer, status)
               ∈ [(JError (js "Telegram bot not configured"), 500%Z);
                  (JError (js "Movie not found"), 404%Z);
                  (JError (js "Invalid file ID"), 400%Z);
                  (JError (js "Failed to get video URL"), 500%Z)])).
Proof.
  split_and!.
  - intros e He. unfold get_file_url. unfold_io_goal. by rewrite He.
  - intros Hnull. unfold get_file_url. unfold_io_goal. by rewrite Hnull.
  - intros fields Hbody.
    destruct (run (get_file_url w req)) as [c tr] eqn:H.
    unfold get_file_url in H. unfold_io H. rewrite Hbody in H.
    destruct fields as [file_id movie_slug]. cbn beta iota zeta in H.
    repeat step_io H; eexists _, _, _; (split; [reflexivity|]);
      first [ left; by eexists _, _, _, _ | right; set_solver ].
Qed.

Lemma get_file_url_answers_witness :
  run (get_file_url (example_world (Normal ()) ∅)
         {| issue_json := Throw SyntaxError; issue_headers := ∅ |})
  = (Throw SyntaxError, [])
  /\ run (get_file_url (example_world (Normal ()) ∅)
            {| issue_json := Normal None; issue_headers := ∅ |})
     = (Throw TypeError, [])
  /\ issue_json (example_issue (js "203.0.113.7"))
     = Normal (Some (js "FILE123", js "movie-x"))
  /\ exists answer status tr,
       run (get_file_url (example_world (Throw D1Error) ∅)
                         (example_issue (js "203.0.113.7")))
       = (Normal (JsonResponse answer status), tr).
Proof.
  assert (H : issue_json (example_issue (js "203.0.113.7"))
              = Normal (Some (js "FILE123", js "movie-x"))) by reflexivity.
  split.
  { exact (proj1 (get_file_url_answers (example_world (Normal ()) ∅)
                    {| issue_json := Throw SyntaxError; issue_headers := ∅ |})
             SyntaxError eq_refl). }
  split.
  { exact (proj1 (proj2 (get_file_url_answers (example_world (Normal ()) ∅)
                           {| issue_json := Normal None; issue_headers := ∅ |}))
             eq_refl). }
  split; [exact H|].
  destruct (proj2 (proj2 (get_file_url_answers (example_world (Throw D1Error) ∅)
                            (example_issue (js "203.0.113.7")))) _ H)
    as (answer & status & tr & Hrun & _).
  eauto.
Defined.

(** X9: the effects of an issuance come in a fixed order and each is
    gated by the one before: the movie lookup first; the [getFile] fetch
    only for a published movie; the analytics row only after [getFile]
    answered ok and the token was made.  Nothing is done twice. *)
Theorem get_file_url_effects w req c tr :
  run (get_file_url w req) = (c, tr) ->
  tr = []
  \/ exists file_id movie_slug,
       issue_json req = Normal (Some (file_id, movie_slug))
       /\ (tr = [EvSelectMovie movie_slug]
           \/ exists botToken movie,
                let getFile := js "https://api.telegram.org/bot" ++ botToken
                                 ++ js "/getFile?file_id=" ++ file_id in
                TELEGRAM_BOT_TOKEN w = Some botToken
                /\ db_first w movie_slug = Normal (Some movie)
                /\ (tr = [EvSelectMovie movie_slug; EvFetch getFile]
                    \/ exists fileResponse fileData row token,
                         net_fetch w getFile = Normal fileResponse
                         /\ resp_json fileResponse = Normal fileData
                         /\ tg_ok fileData = true
                         /\ generateTempToken file_id (caller_ip (issue_headers req))
                              (time_clip (date_now w + 3600000)) = Normal token
                         /\ tr = [EvSelectMovie movie_slug; EvFetch getFile;
                                  EvInsertAnalytics row]
                         /\ user_ip row = caller_ip (issue_headers req)
                         /\ row_movie_id row = movie_id movie)).
Proof.
  unfold get_file_url. intros H. unfold_io H.
  step_io H; [|by left]. step_io H; [|by left]. step_io H.
  step_io H; [by left|].
  match goal with
  | E : negb (truthy _) = false |- _ =>
      apply negb_false_iff, truthy_Some in E as (botToken & HbotToken & Hne)
  end.
  rewrite HbotToken in *. cbn [default from_option id] in *.
  right. eexists _, _. split; [reflexivity|].
  step_io H; [|by left]. step_io H; [|by left].
  right. eexists botToken, _. cbv zeta. split_and!; try done.
  step_io H; [|by left]. step_io H; [|by left]. step_io H; [by left|].
  match goal with
  | E : negb (tg_ok _) = false |- _ => apply negb_false_iff in E
  end.
  step_io H; [|by left]. step_io H; [|by left].
  right. repeat step_io H; by eexists _, _, _, _.
Qed.

Lemma get_file_url_effects_witness :
  exists tr,
    (exists c, run (get_file_url (example_world (Normal ()) ∅)
                                 (example_issue (js "203.0.113.7"))) = (c, tr))
    /\ (tr = []
        \/ exists file_id movie_slug,
             issue_json (example_issue (js "203.0.113.7"))
             = Normal (Some (file_id, movie_slug))).
Proof.
  assert (Hrun : exists c tr,
             run (get_file_url (example_world (Normal ()) ∅)
                               (example_issue (js "203.0.113.7"))) = (c, tr)).
  { do 2 eexists. vm_compute. reflexivity. }
  destruct Hrun as (c & tr & Hrun). exists tr. split; [by eauto|].
  destruct (get_file_url_effects _ _ _ _ Hrun)
    as [Hnil|(file_id & movie_slug & Hjson & _)]; [by left|].
  right. eauto.
Defined.

Lemma truthy_true botToken : botToken <> [] -> truthy (Some botToken) = true.
Proof. by destruct botToken. Qed.

(** X10: the early exits of an issuance.  Without a bot token it answers
    500 and touches nothing; for a movie that is unknown or not published
    it answers 404 and the bot API is never contacted; when [getFile]
    does not answer ok it answers 400 and writes no analytics row. *)
Theorem get_file_url_early_exits w req file_id movie_slug :
  issue_json req = Normal (Some (file_id, movie_slug)) ->
  (truthy (TELEGRAM_BOT_TOKEN w) = false ->
   run (get_file_url w req)
   = (Normal (JsonResponse (JError (js "Telegram bot not configured")) 500), []))
  /\ (forall botToken,
        TELEGRAM_BOT_TOKEN w = Some botToken -> botToken <> [] ->
        (db_first w movie_slug = Normal None ->
         run (get_file_url w req)
         = (Normal (JsonResponse (JError (js "Movie not found")) 404),
            [EvSelectMovie movie_slug]))
        /\ (forall movie fileResponse fileData,
              let getFile := js "https://api.telegram.org/bot" ++ botToken
                               ++ js "/getFile?file_id=" ++ file_id in
              db_first w movie_slug = Normal (Some movie) ->
              net_fetch w getFile = Normal fileResponse ->
              resp_json fileResponse = Normal fileData ->
              tg_ok fileData = false ->
              run (get_file_url w req)
              = (Normal (JsonResponse (JError (js "Invalid file ID")) 400),
                 [EvSelectMovie movie_slug; EvFetch getFile]))).
Proof.
  intros Hjson. split; [|intros botToken Hbot Hne; split].
  - intros Hfalsy. unfold get_file_url. unfold_io_goal. by rewrite Hjson, Hfalsy.
  - intros Hmovie. unfold get_file_url. unfold_io_goal.
    by rewrite Hjson, Hbot, (truthy_true _ Hne), Hmovie.
  - intros movie fileResponse fileData getFile Hmovie Hfetch Hreply Hok.
    unfold get_file_url. unfold_io_goal.
    rewrite Hjson, Hbot, (truthy_true _ Hne). cbn [negb default from_option id].
    rewrite Hmovie. fold getFile. by rewrite Hfetch, Hreply, Hok.
Qed.

Lemma get_file_url_early_exits_witness :
  run (get_file_url example_world_unpublished (example_issue (js "203.0.113.7")))
  = (Normal (JsonResponse (JError (js "Movie not found")) 404),
     [EvSelectMovie (js "movie-x")]).
Proof.
  refine (proj1 (proj2 (get_file_url_early_exits example_world_unpublished
                          (example_issue (js "203.0.113.7"))
                          (js "FILE123") (js "movie-x") eq_refl)
                 example_bot_token eq_refl _) eq_refl).
  vm_compute. discriminate.
Defined.

(** X11: a file id with a code unit above 0xFF cannot be minted into a
    token: after the movie lookup and a [getFile] that answered ok, the
    handler answers 500 and writes no analytics row. *)
Theorem get_file_url_non_latin1 w req file_id movie_slug botToken movie
    fileResponse fileData result :
  let getFile := js "https://api.telegram.org/bot" ++ botToken
                   ++ js "/getFile?file_id=" ++ file_id in
  issue_json req = Normal (Some (file_id, movie_slug)) ->
  TELEGRAM_BOT_TOKEN w = Some botToken -> botToken <> [] ->
  db_first w movie_slug = Normal (Some movie) ->
  net_fetch w getFile = Normal fileResponse ->
  resp_json fileResponse = Normal fileData ->
  tg_ok fileData = true ->
  tg_result fileData = Some result ->
  ~ latin1 file_id ->
  run (get_file_url w req)
  = (Normal (JsonResponse (JError (js "Failed to get video URL")) 500),
     [EvSelectMovie movie_slug; EvFetch getFile]).
Proof.
  intros getFile Hjson Hbot Hne Hmovie Hfetch Hreply Hok Hres Hlat.
  assert (Hgen : generateTempToken file_id (caller_ip (issue_headers req))
                   (time_clip (date_now w + 3600000))
                 = Throw InvalidCharacterError).
  { rewrite generateTempToken_eq. cbv zeta.
    destruct (forallb _ _) eqn:Hall; [|done].
    destruct Hlat. by apply latin1_app in Hall as [? _]. }
  unfold get_file_url. unfold_io_goal.
  rewrite Hjson, Hbot, (truthy_true _ Hne). cbn [negb default from_option id].
  rewrite Hmovie. fold getFile. rewrite Hfetch, Hreply, Hok. cbn [negb].
  by rewrite Hres, Hgen.
Qed.

Lemma get_file_url_non_latin1_witness :
  run (get_file_url example_world_lenient example_issue_euro)
  = (Normal (JsonResponse (JError (js "Failed to get video URL")) 500),
     [EvSelectMovie (js "movie-x");
      EvFetch (js "https://api.telegram.org/bot123456:SECRET/getFile?file_id="
                 ++ [70; 8364])]).
Proof.
  refine (get_file_url_non_latin1 example_world_lenient example_issue_euro
            [70; 8364] (js "movie-x") example_bot_token {| movie_id := 7 |}
            _ example_reply _ eq_refl eq_refl _ eq_refl eq_refl eq_refl eq_refl
            eq_refl _).
  - vm_compute. discriminate.
  - vm_compute. discriminate.
Defined.

(* ===================================================================== *)
(** * More on the stream handler                                          *)
(* ===================================================================== *)

(** X12: the stream handler never throws and never touches the database:
    it performs at most two fetches and nothing else, and answers either
    the relayed stream or one of five JSON errors (401, 503, 404 twice,
    500). *)
Theorem stream_answers w req :
  exists answer tr,
    run (stream w req) = (Normal answer, tr)
    /\ Forall (fun ev => exists url, ev = EvFetch url) tr
    /\ (length tr <= 2)%nat
    /\ ((exists body status headers, answer = StreamResponse body status headers)
        \/ exists error status,
             answer = JsonResponse (JError error) status
             /\ (error, status)
                ∈ [(js "Invalid or expired token", 401%Z);
                   (js "Service unavailable", 503%Z);
                   (js "Video no longer available", 404%Z);
                   (js "Video stream unavailable", 404%Z);
                   (js "Stream error", 500%Z)]).
Proof.
  destruct (run (stream w req)) as [c tr] eqn:H.
  unfold stream in H. unfold_io H.
  repeat step_io H; eexists _, _; (split; [reflexivity|]);
    (split; [repeat constructor; eauto|]); (split; [cbn; lia|]);
    first [ left; by eexists _, _, _ | right; eexists _, _; split; [reflexivity|set_solver] ].
Qed.

(** X13: the error exits of a relay, for a token that verifies.  Without
    a bot token it answers 503 and fetches nothing; when [getFile] does
    not answer ok it answers 404 and the download is never fetched; when
    the download does not answer ok it answers 404 and relays nothing. *)
Theorem stream_error_exits w req tokenData :
  verifyTempToken (param_token req) (caller_ip (stream_headers req)) (date_now w)
  = Normal (Some tokenData) ->
  (truthy (TELEGRAM_BOT_TOKEN w) = false ->
   run (stream w req)
   = (Normal (JsonResponse (JError (js "Service unavailable")) 503), []))
  /\ (forall botToken fileResponse fileData,
        let getFile := js "https://api.telegram.org/bot" ++ botToken
                         ++ js "/getFile?file_id=" ++ to_string (file_id tokenData) in
        TELEGRAM_BOT_TOKEN w = Some botToken -> botToken <> [] ->
        net_fetch w getFile = Normal fileResponse ->
        resp_json fileResponse = Normal fileData ->
        (tg_ok fileData = false ->
         run (stream w req)
         = (Normal (JsonResponse (JError (js "Video no longer available")) 404),
            [EvFetch getFile]))
        /\ (forall result videoResponse,
              let videoUrl :=
                js "https://api.telegram.org/file/bot" ++ botToken ++ js "/"
                  ++ to_string (from_option Str Undefined (file_path result)) in
              tg_ok fileData = true ->
              tg_result fileData = Some result ->
              net_fetch w videoUrl = Normal videoResponse ->
              resp_ok videoResponse = false ->
              run (stream w req)
              = (Normal (JsonResponse (JError (js "Video stream unavailable")) 404),
                 [EvFetch getFile; EvFetch videoUrl]))).
Proof.
  intros Hverify. split; [|intros botToken fileResponse fileData getFile
                             Hbot Hne Hfetch Hreply; split].
  - intros Hfalsy. unfold stream. unfold_io_goal. by rewrite Hverify, Hfalsy.
  - intros Hok. unfold stream. unfold_io_goal.
    rewrite Hverify, Hbot, (truthy_true _ Hne). cbn [negb default from_option id].
    fold getFile. by rewrite Hfetch, Hreply, Hok.
  - intros result videoResponse videoUrl Hok Hres Hvideo Hnok.
    unfold stream. unfold_io_goal.
    rewrite Hverify, Hbot, (truthy_true _ Hne). cbn [negb default from_option id].
    fold getFile. rewrite Hfetch, Hreply, Hok. cbn [negb]. rewrite Hres.
    fold videoUrl. by rewrite Hvideo, Hnok.
Qed.

Lemma stream_error_exits_witness :
  verifyTempToken example_token (js "203.0.113.7") 1700000000000
  = Normal (Some (TokenData (Str (js "FILE123")) (Num 1700003600000)))
  /\ run (stream (Build_World 1700000000000 None (fun _ => Normal None)
                              (fun _ => Normal ()) (example_fetch ∅))
                 (example_stream example_token (js "203.0.113.7")))
     = (Normal (JsonResponse (JError (js "Service unavailable")) 503), []).
Proof.
  assert (H : verifyTempToken example_token (js "203.0.113.7") 1700000000000
              = Normal (Some (TokenData (Str (js "FILE123")) (Num 1700003600000))))
    by (vm_compute; reflexivity).
  split; [exact H|].
  exact (proj1 (stream_error_exits
                  (Build_World 1700000000000 None (fun _ => Normal None)
                               (fun _ => Normal ()) (example_fetch ∅))
                  (example_stream example_token (js "203.0.113.7")) _ H) eq_refl).
Defined.

(** The relay of a token that verifies, when every fetch answers ok. *)
Lemma stream_relays w req tokenData botToken fileResponse fileData result
    videoResponse :
  let getFile := js "https://api.telegram.org/bot" ++ botToken
                   ++ js "/getFile?file_id=" ++ to_string (file_id tokenData) in
  let videoUrl := js "https://api.telegram.org/file/bot" ++ botToken ++ js "/"
                    ++ to_string (from_option Str Undefined (file_path result)) in
  verifyTempToken (param_token req) (caller_ip (stream_headers req)) (date_now w)
  = Normal (Some tokenData) ->
  TELEGRAM_BOT_TOKEN w = Some botToken -> botToken <> [] ->
  net_fetch w getFile = Normal fileResponse ->
  resp_json fileResponse = Normal fileData ->
  tg_ok fileData = true ->
  tg_result fileData = Some result ->
  net_fetch w videoUrl = Normal videoResponse ->
  resp_ok videoResponse = true ->
  exists headers,
    run (stream w req)
    = (Normal (StreamResponse (resp_body videoResponse)
                              (resp_status videoResponse) headers),
       [EvFetch getFile; EvFetch videoUrl]).
Proof.
  intros getFile videoUrl Hverify Hbot Hne Hfetch Hreply Hok Hres Hvideo Hvok.
  unfold stream. unfold_io_goal.
  rewrite Hverify, Hbot, (truthy_true _ Hne). cbn [negb default from_option id].
  fold getFile. rewrite Hfetch, Hreply, Hok. cbn [negb]. rewrite Hres.
  fold videoUrl. rewrite Hvideo, Hvok. cbn [negb]. eauto.
Qed.

(** X14: issuing, then streaming.  The token of a successful issuance at
    instant [T], for a file id and a caller without colon, is refused
    with 401 and no effect at every instant after [T + 3600000]; up to
    that instant, and whoever the caller is, the same deployment fetches
    the [getFile] URL that the issuance fetched and then the issuance's
    [direct_url], and relays that download when it answers ok. *)
Theorem issue_then_stream w req video_url direct_url expires size status tr
    w' sreq :
  run (get_file_url w req)
  = (Normal (JsonResponse (JVideo video_url direct_url expires size) status), tr) ->
  (forall file_id movie_slug,
     issue_json req = Normal (Some (file_id, movie_slug)) -> colon_free file_id) ->
  colon_free (caller_ip (issue_headers req)) ->
  js "/api/telegram/stream/" ++ param_token sreq = video_url ->
  ((date_now w + 3600000 < date_now w')%Z ->
   run (stream w' sreq)
   = (Normal (JsonResponse (JError (js "Invalid or expired token")) 401), []))
  /\ ((date_now w' <= date_now w + 3600000)%Z ->
      TELEGRAM_BOT_TOKEN w' = TELEGRAM_BOT_TOKEN w ->
      net_fetch w' = net_fetch w ->
      forall videoResponse,
        net_fetch w direct_url = Normal videoResponse ->
        resp_ok videoResponse = true ->
        exists getFile select insert headers,
          tr = [select; EvFetch getFile; insert]
          /\ run (stream w' sreq)
             = (Normal (StreamResponse (resp_body videoResponse)
                                       (resp_status videoResponse) headers),
                [EvFetch getFile; EvFetch direct_url])).
Proof.
  intros Hrun Hf Hip Hurl. apply get_file_url_success in Hrun
    as (file_id & movie_slug & botToken & movie & fileResponse & fileData
        & result & tempToken & Hrun).
  cbv zeta in Hrun.
  destruct Hrun as (Hjson&Hbot&Hne&_&Hfetch&Hreply&Hok&Hres&_&Hgen&_&->&->&_&_&_&->).
  apply app_inv_head in Hurl. subst tempToken.
  pose proof (decodeTempToken_generate _ _ _ _ (Hf _ _ Hjson) Hip Hgen) as Hdec.
  split.
  - intros Hlate. unfold stream. unfold_io_goal.
    rewrite verifyTempToken_decode, Hdec. cbn [js_gt].
    by rewrite bool_decide_true by lia.
  - intros Hearly Hbot' Hnet videoResponse Hvideo Hvok.
    assert (Hverify : verifyTempToken (param_token sreq)
                        (caller_ip (stream_headers sreq)) (date_now w')
                      = Normal (Some (TokenData (Str file_id)
                                        (Num (date_now w + 3600000))))).
    { rewrite verifyTempToken_decode, Hdec. cbn [js_gt].
      by rewrite bool_decide_false by lia. }
    rewrite <- Hbot', <- Hnet in *.
    destruct (stream_relays w' sreq _ botToken _ _ _ _ Hverify Hbot Hne Hfetch
                Hreply Hok Hres Hvideo Hvok) as [headers Hstream].
    by eexists _, _, _, headers.
Qed.

Lemma issue_then_stream_witness :
  run (stream example_world_later (example_stream example_token (js "198.51.100.9")))
  = (Normal (JsonResponse (JError (js "Invalid or expired token")) 401), [])
  /\ exists headers,
       run (stream (example_world (Normal ()) example_chunked)
                   (example_stream example_token (js "198.51.100.9")))
       = (Normal (StreamResponse [0; 0; 0; 24; 102; 116; 121; 112] 200 headers),
          [EvFetch example_getFile_url;
           EvFetch (js "https://api.telegram.org/file/bot123456:SECRET/videos/file_7.mp4")]).
Proof.
  assert (Hrun : exists video_url direct_url expires size status tr,
             run (get_file_url (example_world (Normal ()) example_chunked)
                               (example_issue (js "203.0.113.7")))
             = (Normal (JsonResponse (JVideo video_url direct_url expires size)
                                     status), tr)
             /\ js "/api/telegram/stream/" ++ example_token = video_url
             /\ direct_url
                = js "https://api.telegram.org/file/bot123456:SECRET/videos/file_7.mp4").
  { do 6 eexists. split; [vm_compute; reflexivity|]. split; reflexivity. }
  destruct Hrun as (video_url & direct_url & expires & size & status & tr
                    & Hrun & Hurl & ->).
  assert (Hf : forall file_id movie_slug,
             issue_json (example_issue (js "203.0.113.7"))
             = Normal (Some (file_id, movie_slug)) -> colon_free file_id).
  { intros file_id movie_slug [= <- <-]. reflexivity. }
  split.
  - refine (proj1 (issue_then_stream _ _ _ _ _ _ _ _ example_world_later
                     (example_stream example_token (js "198.51.100.9"))
                     Hrun Hf eq_refl Hurl) _).
    vm_compute. reflexivity.
  - destruct (proj2 (issue_then_stream _ _ _ _ _ _ _ _
                       (example_world (Normal ()) example_chunked)
                       (example_stream example_token (js "198.51.100.9"))
                       Hrun Hf eq_refl Hurl)
                ltac:(vm_compute; discriminate) eq_refl eq_refl _ eq_refl eq_refl)
      as (getFile & select & insert & headers & Htr & Hstream).
    exists headers. rewrite Hstream. f_equal.
    vm_compute in Hrun. injection Hrun as _ _ _ _ <- .
    by injection Htr as _ <- _.
Defined.

(* ===================================================================== *)
(** * The video-info handler                                              *)
(* ===================================================================== *)

(** X15: video-info hands out the same download URL as an issuance: for
    the file id of a successful issuance, the same deployment answers
    video-info with the issuance's [direct_url] and file size, after the
    one [getFile] fetch that the issuance made, without looking up any
    movie. *)
Theorem video_info_matches_issuance w req video_url direct_url expires size
    status tr :
  run (get_file_url w req)
  = (Normal (JsonResponse (JVideo video_url direct_url expires size) status), tr) ->
  exists file_id movie_slug result select getFile insert,
    issue_json req = Normal (Some (file_id, movie_slug))
    /\ tr = [select; EvFetch getFile; insert]
    /\ file_size result = size
    /\ run (video_info w file_id)
       = (Normal (InfoFile result direct_url), [EvFetch getFile]).
Proof.
  intros Hrun. apply get_file_url_success in Hrun
    as (file_id & movie_slug & botToken & movie & fileResponse & fileData
        & result & tempToken & Hrun).
  cbv zeta in Hrun.
  destruct Hrun as (Hjson&Hbot&Hne&_&Hfetch&Hreply&Hok&Hres&_&_&_&_&->&_&->&_&->).
  eexists file_id, movie_slug, result, _, _, _.
  split_and!; try done.
  unfold video_info. unfold_io_goal.
  rewrite Hbot, (truthy_true _ Hne). cbn [negb default from_option id].
  by rewrite Hfetch, Hreply, Hok, Hres.
Qed.

Lemma video_info_matches_issuance_witness :
  exists direct_url,
    (exists video_url expires size status tr,
       run (get_file_url (example_world (Normal ()) ∅)
                         (example_issue (js "203.0.113.7")))
       = (Normal (JsonResponse (JVideo video_url direct_url expires size) status),
          tr))
    /\ exists result getFile,
         run (video_info (example_world (Normal ()) ∅) (js "FILE123"))
         = (Normal (InfoFile result direct_url), [EvFetch getFile]).
Proof.
  assert (Hrun : exists video_url direct_url expires size status tr,
             run (get_file_url (example_world (Normal ()) ∅)
                               (example_issue (js "203.0.113.7")))
             = (Normal (JsonResponse (JVideo video_url direct_url expires size)
                                     status), tr)).
  { do 6 eexists. vm_compute. reflexivity. }
  destruct Hrun as (video_url & direct_url & expires & size & status & tr & Hrun).
  exists direct_url. split; [by eauto 6|].
  destruct (video_info_matches_issuance _ _ _ _ _ _ _ _ Hrun)
    as (file_id & movie_slug & result & select & getFile & insert
        & Hjson & _ & _ & Hinfo).
  injection Hjson as <- <-. eauto.
Defined.

(** X16: video-info never throws; it makes one fetch, of [getFile] for
    the requested file id, when a bot token is configured and none
    otherwise; and it answers the file or one of three errors. *)
Theorem video_info_answers w fileId :
  exists answer tr,
    run (video_info w fileId) = (Normal answer, tr)
    /\ (tr = [] /\ truthy (TELEGRAM_BOT_TOKEN w) = false
        \/ exists botToken,
             TELEGRAM_BOT_TOKEN w = Some botToken /\ botToken <> []
             /\ tr = [EvFetch (js "https://api.telegram.org/bot" ++ botToken
                                 ++ js "/getFile?file_id=" ++ fileId)])
    /\ ((exists file_info download_url, answer = InfoFile file_info download_url)
        \/ answer ∈ [InfoError (js "Bot token not configured") 500;
                     InfoError (js "File not found") 404;
                     InfoError (js "Failed to get file info") 500]).
Proof.
  destruct (run (video_info w fileId)) as [c tr] eqn:H.
  unfold video_info in H. unfold_io H.
  step_io H.
  { eexists _, _. split; [reflexivity|].
    apply negb_true_iff in E. split; [by left|]. right. set_solver. }
  apply negb_false_iff, truthy_Some in E as (botToken & HbotToken & Hne).
  rewrite HbotToken in *. cbn [default from_option id] in *.
  repeat step_io H; eexists _, _; (split; [reflexivity|]);
    (split; [right; by exists botToken|]);
    first [ left; by eexists _, _ | right; set_solver ].
Qed.

(* ===================================================================== *)
(** * The analytics handlers                                              *)
(* ===================================================================== *)

(** Exposes the plumbing of an analytics handler run in the goal. *)
Ltac unfold_eff_goal :=
  unfold run_eff, mbind, mret, eff_bind, eff_ret, lift_eff, perform_eff,
    try_catch_eff, get;
  cbn beta iota zeta.

Tactic Notation "unfold_eff" hyp(H) :=
  unfold run_eff, mbind, mret, eff_bind, eff_ret, lift_eff, perform_eff,
    try_catch_eff, get in H;
  cbn beta iota zeta in H.

Lemma includes_spec l v :
  includes l v = true <-> exists t, t ∈ l /\ v = JStr t.
Proof.
  unfold includes. rewrite existsb_exists. split.
  - intros (t & Hin & Hv). apply bool_decide_eq_true in Hv.
    exists t. by rewrite list_elem_of_In.
  - intros (t & Hin & Hv). exists t. rewrite <- list_elem_of_In.
    split; [done|]. by apply bool_decide_eq_true.
Qed.

(** X17: an event whose type is not one of the eighteen known strings
    (a number, [null], a missing field, any other text) is answered 400
    and nothing is written. *)
Theorem track_rejects_unknown_type env req body :
  an_json req = Normal (Some body) ->
  (forall t, o_event_type body = JStr t -> t ∉ validEventTypes) ->
  run_eff (track env req) = (Normal (AnError (js "Invalid event type") 400), []).
Proof.
  intros Hjson Hunknown.
  assert (Hinc : includes validEventTypes (o_event_type body) = false).
  { apply not_true_is_false. rewrite includes_spec. intros (t & Hin & Ht).
    by apply (Hunknown t). }
  unfold track. unfold_eff_goal. by rewrite Hjson, Hinc.
Qed.

Lemma track_rejects_unknown_type_witness :
  run_eff (track example_analytics
             {| an_json := Normal (Some (example_event (js "PAGE_VIEW") JUndefined));
                an_headers := ∅ |})
  = (Normal (AnError (js "Invalid event type") 400), []).
Proof.
  apply (track_rejects_unknown_type example_analytics
           {| an_json := Normal (Some (example_event (js "PAGE_VIEW") JUndefined));
              an_headers := ∅ |}
           (example_event (js "PAGE_VIEW") JUndefined) eq_refl).
  intros t [= <-]. apply (bool_decide_unpack _). vm_compute. exact I.
Defined.

(** X18: the metadata INSERT is best-effort: whatever it does, the
    answer and the statements run are the same. *)
Theorem track_metadata_best_effort env req metadata_insert :
  run_eff (track {| an_now := an_now env; an_insert := an_insert env;
                    an_insert_metadata := metadata_insert |} req)
  = run_eff (track env req).
Proof.
  unfold track. unfold_eff_goal. cbn [an_now an_insert an_insert_metadata].
  destruct (an_json req) as [[body|]|e]; try done.
  destruct (includes _ _); [|done]. cbn [negb].
  destruct (an_insert env 0 _) as [last_row_id|e]; [|done].
  destruct (json_truthy (o_metadata body) && json_truthy last_row_id); [|done].
  by destruct (metadata_insert _ _), (an_insert_metadata env _ _).
Qed.

(** X19: what a tracked event leaves behind.  The handler never throws.
    On success the event's type is a known one, the row bound carries the
    caller's address and agent, [analytics_id] is the id that the INSERT
    returned, and a metadata row follows exactly when both the metadata
    and that id are truthy.  A 500 answer always ends with the error
    logged. *)
Theorem track_answers env req :
  exists answer tr,
    run_eff (track env req) = (Normal answer, tr)
    /\ (forall id ts, answer = AnOk id ts ->
        exists body,
          let row := event_row (caller_ip (an_headers req))
                       (or_lit (headers_get (an_headers req) (js "User-Agent"))
                               (js "unknown"))
                       (or_else (headers_get (an_headers req) (js "Referer")) None)
                       body in
          an_json req = Normal (Some body)
          /\ includes validEventTypes (o_event_type body) = true
          /\ an_insert env 0 row = Normal id
          /\ ts = iso_string (an_now env)
          /\ tr = AnInsert row
                    :: (if json_truthy (o_metadata body) && json_truthy id
                        then [AnInsertMetadata id (o_metadata body)] else []))
    /\ (forall error debug, answer = AnFailed error debug ->
        error = js "Analytics tracking failed"
        /\ exists tr', tr = tr' ++ [AnConsoleError debug])
    /\ (forall error status, answer = AnError error status ->
        error = js "Invalid event type" /\ status = 400%Z /\ tr = []).
Proof.
  destruct (run_eff (track env req)) as [c tr] eqn:H.
  unfold track in H. unfold_eff H.
  destruct (an_json req) as [[body|]|e] eqn:Hjson; simplify_eq;
    try (eexists _, _; split; [reflexivity|]; split_and!; intros; simplify_eq;
         split; [done|]; by exists []).
  destruct (includes _ _) eqn:Hinc; cbn [negb] in H; simplify_eq;
    [|eexists _, _; split; [reflexivity|]; split_and!; by intros; simplify_eq].
  destruct (an_insert env 0 _) as [last_row_id|e] eqn:Hins; simplify_eq;
    [|eexists _, _; split; [reflexivity|]; split_and!; intros; simplify_eq;
      split; [done|]; by eexists [_]].
  unfold time_clip, toISOString in H.
  destruct (json_truthy (o_metadata body) && json_truthy last_row_id) eqn:Hmeta.
  - destruct (an_insert_metadata env _ _); case_bool_decide; simplify_eq;
      (eexists _, _; split; [reflexivity|]; split_and!; intros; simplify_eq;
       first [ exists body; cbv zeta; by rewrite Hmeta
             | split; [done|]; by eexists [_; _] ]).
  - case_bool_decide; simplify_eq;
      (eexists _, _; split; [reflexivity|]; split_and!; intros; simplify_eq;
       first [ exists body; cbv zeta; by rewrite Hmeta
             | split; [done|]; by eexists [_] ]).
Qed.

Lemma insert_failures_length env ip ua ref objs i :
  (length (insert_failures env ip ua ref objs i) <= length objs)%nat.
Proof.
  revert i. induction objs as [|o objs IH]; intros i; cbn [insert_failures length].
  - lia.
  - destruct (an_insert env i _); cbn [length]; specialize (IH (S i)); lia.
Qed.

(** The loop over a run of objects, then the rest of the array. *)
Lemma batch_loop_objects env ip ua ref objs more i s errs tr :
  batch_loop env ip ua ref ((Some <$> objs) ++ more) i s errs tr
  = batch_loop env ip ua ref more (i + length objs)
      (s + (length objs - length (insert_failures env ip ua ref objs i)))
      (errs ++ insert_failures env ip ua ref objs i)
      (tr ++ (AnInsert ∘ event_row ip ua ref <$> objs)).
Proof.
  revert i s errs tr. induction objs as [|o objs IH]; intros i s errs tr.
  - cbn [fmap list_fmap app length insert_failures].
    by rewrite !app_nil_r, Nat.add_0_r, Nat.add_0_r.
  - cbn [fmap list_fmap app batch_loop]. unfold_eff_goal.
    cbn [insert_failures length]. fold (event_row ip ua ref o).
    pose proof (insert_failures_length env ip ua ref objs (S i)) as Hlen.
    destruct (an_insert env i (event_row ip ua ref o)) as [id|e].
    + change (list_fmap _ _ Some objs) with (Some <$> objs).
      rewrite IH. cbn [fmap list_fmap compose]. rewrite <- app_assoc. cbn [app].
      f_equal; lia.
    + change (list_fmap _ _ Some objs) with (Some <$> objs).
      rewrite IH. cbn [fmap list_fmap compose length].
      rewrite <- !app_assoc. cbn [app]. f_equal; lia.
Qed.

(** X20: a batch of one to a hundred event objects is always answered
    with success, whatever the INSERTs do: one INSERT is run per event, in
    order; [failed] counts the INSERTs that threw, [successful] the
    others, so [successful + failed = processed]; and at most the first
    five failures are listed. *)
Theorem track_batch_counts env req objs :
  batch_json req = Normal (Some (EventArray (Some <$> objs))) ->
  (1 <= length objs <= 100)%nat ->
  let userIP := caller_ip (batch_headers req) in
  let userAgent := or_lit (headers_get (batch_headers req) (js "User-Agent"))
                          (js "unknown") in
  let referrer := or_else (headers_get (batch_headers req) (js "Referer")) None in
  let failures := insert_failures env userIP userAgent referrer objs 0 in
  exists successful,
    run_eff (track_batch env req)
    = (Normal (BatchOk (length objs) successful (length failures)
                       (take 5 failures)),
       AnInsert ∘ event_row userIP userAgent referrer <$> objs)
    /\ (successful + length failures = length objs)%nat
    /\ (length (take 5 failures) <= 5)%nat.
Proof.
  intros Hjson Hlen userIP userAgent referrer failures.
  pose proof (insert_failures_length env userIP userAgent referrer objs 0) as Hf.
  fold failures in Hf.
  exists (length objs - length failures)%nat. split_and!.
  - unfold track_batch. unfold_eff_goal. rewrite Hjson. cbn beta iota.
    rewrite length_fmap.
    rewrite bool_decide_false by lia. rewrite bool_decide_false by lia.
    fold userIP userAgent referrer.
    pose proof (batch_loop_objects env userIP userAgent referrer objs [] 0 0 [] [])
      as Hloop.
    rewrite app_nil_r in Hloop. rewrite Hloop.
    cbn [batch_loop]. unfold mret, eff_ret. cbn [app Nat.add]. done.
  - lia.
  - rewrite length_take. lia.
Qed.

Lemma track_batch_counts_witness :
  run_eff (track_batch example_analytics
             {| batch_json :=
                  Normal (Some (EventArray
                    (Some <$> [example_event (js "page_view") JUndefined;
                               example_event (js "video_play") JUndefined;
                               example_event (js "no_such_type") JUndefined])));
                batch_headers := {[ js "cf-connecting-ip" := js "203.0.113.7" ]} |})
  = (Normal (BatchOk 3 2 1 [(JStr (js "video_play"), D1Error)]),
     AnInsert ∘ event_row (js "203.0.113.7") (js "unknown") None
       <$> [example_event (js "page_view") JUndefined;
            example_event (js "video_play") JUndefined;
            example_event (js "no_such_type") JUndefined]).
Proof.
  destruct (track_batch_counts example_analytics
              {| batch_json :=
                   Normal (Some (EventArray
                     (Some <$> [example_event (js "page_view") JUndefined;
                                example_event (js "video_play") JUndefined;
                                example_event (js "no_such_type") JUndefined])));
                 batch_headers := {[ js "cf-connecting-ip" := js "203.0.113.7" ]} |}
              [example_event (js "page_view") JUndefined;
               example_event (js "video_play") JUndefined;
               example_event (js "no_such_type") JUndefined]
              eq_refl ltac:(cbn; lia))
    as (successful & Hrun & Hsum & _).
  rewrite Hrun.
  assert (Hfailed : length (insert_failures example_analytics (js "203.0.113.7")
                              (js "unknown") None
                              [example_event (js "page_view") JUndefined;
                               example_event (js "video_play") JUndefined;
                               example_event (js "no_such_type") JUndefined] 0)
                    = 1%nat) by (vm_compute; reflexivity).
  assert (successful = 2%nat) as ->.
  { change (successful + length (insert_failures example_analytics
                                   (js "203.0.113.7") (js "unknown") None
                                   [example_event (js "page_view") JUndefined;
                                    example_event (js "video_play") JUndefined;
                                    example_event (js "no_such_type") JUndefined] 0)
            = 3)%nat in Hsum.
    rewrite Hfailed in Hsum. lia. }
  vm_compute. reflexivity.
Defined.

(** X21: the size gates of a batch: a value that is no array, an empty
    array, or an array of more than a hundred events is answered 400 and
    nothing is written. *)
Theorem track_batch_size_gates env req events :
  batch_json req = Normal (Some events) ->
  match events with
  | NotArray | EventArray [] =>
      run_eff (track_batch env req)
      = (Normal (BatchError (js "Invalid events array") 400), [])
  | EventArray l =>
      (100 < length l)%nat ->
      run_eff (track_batch env req)
      = (Normal (BatchError (js "Too many events in batch (max 100)") 400), [])
  end.
Proof.
  intros Hjson. unfold track_batch. unfold_eff_goal. rewrite Hjson.
  destruct events as [|[|event l]]; try done.
  intros Hlen. cbn beta iota.
  rewrite bool_decide_false by done. by rewrite bool_decide_true by done.
Qed.

Lemma track_batch_size_gates_witness :
  run_eff (track_batch example_analytics
             {| batch_json := Normal (Some (EventArray (replicate 101 None)));
                batch_headers := ∅ |})
  = (Normal (BatchError (js "Too many events in batch (max 100)") 400), []).
Proof.
  apply (track_batch_size_gates example_analytics
           {| batch_json := Normal (Some (EventArray (replicate 101 None)));
              batch_headers := ∅ |}
           (EventArray (replicate 101 None)) eq_refl).
  vm_compute. lia.
Defined.

(** X22: a [null] among the events aborts the batch: the events before
    it have had their INSERT run, those after it have not, and the answer
    is 500 with the TypeError logged, not a count. *)
Theorem track_batch_null_event env req objs rest :
  batch_json req = Normal (Some (EventArray ((Some <$> objs) ++ None :: rest))) ->
  (length objs + S (length rest) <= 100)%nat ->
  run_eff (track_batch env req)
  = (Normal (BatchError (js "Batch analytics failed") 500),
     (AnInsert
        ∘ event_row (caller_ip (batch_headers req))
            (or_lit (headers_get (batch_headers req) (js "User-Agent"))
                    (js "unknown"))
            (or_else (headers_get (batch_headers req) (js "Referer")) None)
        <$> objs)
     ++ [AnConsoleError TypeError]).
Proof.
  intros Hjson Hlen. unfold track_batch. unfold_eff_goal. rewrite Hjson.
  cbn beta iota. rewrite length_app, length_fmap. cbn [length].
  rewrite bool_decide_false by lia. rewrite bool_decide_false by lia.
  rewrite batch_loop_objects. cbn [batch_loop]. unfold_eff_goal.
  by rewrite app_nil_l.
Qed.

Lemma track_batch_null_event_witness :
  run_eff (track_batch example_analytics
             {| batch_json :=
                  Normal (Some (EventArray
                    ((Some <$> [example_event (js "page_view") JUndefined])
                       ++ None :: [Some (example_event (js "video_play") JUndefined)])));
                batch_headers := ∅ |})
  = (Normal (BatchError (js "Batch analytics failed") 500),
     [AnInsert (event_row (js "unknown") (js "unknown") None
                  (example_event (js "page_view") JUndefined));
      AnConsoleError TypeError]).
Proof.
  refine (track_batch_null_event example_analytics
            {| batch_json :=
                 Normal (Some (EventArray
                   ((Some <$> [example_event (js "page_view") JUndefined])
                      ++ None :: [Some (example_event (js "video_play") JUndefined)])));
               batch_headers := ∅ |}
            [example_event (js "page_view") JUndefined]
            [Some (example_event (js "video_play") JUndefined)] eq_refl _).
  cbn. lia.
Defined.
